(** * FlushCodeHack: the [team2] poker player

    A shallow embedding of [src/services/players/team2/index.ts] (class
    [JsPlayer]) and the verification of its hand evaluator, its draw
    selector, its betting policy and its four lifecycle hooks.

    Conventions of the embedding.
    - JavaScript numbers are IEEE 754 binary64 values.  Hand strengths, the
      only fractional quantities of the program, are kept as primitive
      binary64 floats ([PrimFloat.float]) with the very operations the
      program performs on them.  Card numbers, points, bets and counters are
      integers and are kept in [Z], with exact arithmetic; the program
      computes the same values as long as the amounts stay within
      [safePoints] and the card numbers print in plain decimal (below
      [10^21]; [validCard] asks far less).
    - [null]/[undefined] is [None]; the object [data.players], a dictionary
      with string keys chosen by the engine, is a [gmap], which has the own
      properties only: [data.players[name]] also finds what
      [Object.prototype] defines, so the lookup is the program's for the
      names of [ownKey]; the object [counts], whose key order is observable
      through [Object.keys], is an ordered association list.
    - [this.logger?.info(...)] only emits text; it reads the session but
      writes no field and returns nothing that is used, so it is omitted. *)

From Stdlib Require Import ZArith QArith Qround List String Ascii Floats Uint63 Lia DecimalString.
From stdpp Require Import base option list gmap strings sorting.
Import ListNotations.
Local Open Scope Z_scope.

(** ** The JavaScript primitives the program uses *)

Module Js.

(** [String(n)] for an integer [n] of magnitude below [10^21]: plain decimal,
    [-] for negatives.  (From [10^21] on the program prints an exponent.) *)
Definition String_ (n : Z) : string := NilZero.string_of_int (Z.to_int n).

(** [s.padStart(n, fill)] for a one-character [fill]. *)
Definition padStart (n : nat) (fill : ascii) (s : string) : string :=
  (string_of_list_ascii (repeat fill (n - String.length s)) ++ s)%string.

(** [a.join(sep)]. *)
Definition join (sep : string) (a : list string) : string := String.concat sep a.

(** [JSON.stringify] of an array of integers. *)
Definition JSON_stringify (a : list Z) : string :=
  ("[" ++ join "," (map String_ a) ++ "]")%string.

(** The integer [z] as a binary64 number (rounded to nearest even when it
    has more than 53 significant bits). *)
Definition Num (z : Z) : float := SF2Prim (binary_normalize prec emax z 0 false).

(** The decimal [m / 10^k] rounded once, to nearest even, to binary64: the
    number a decimal literal with digits [m] and [k] fraction digits
    denotes. *)
Definition zfloat (z : Z) : spec_float :=
  match z with
  | Z0 => S754_zero false
  | Zpos p => S754_finite false p 0
  | Zneg p => S754_finite true p 0
  end.

Definition decimal (m : Z) (k : nat) : float :=
  SF2Prim (SFdiv prec emax (zfloat m) (zfloat (10 ^ Z.of_nat k))).

Definition digit (c : ascii) : option Z :=
  let n := Z.of_N (N_of_ascii c) in
  if (48 <=? n) && (n <=? 57) then Some (n - 48) else None.

(** The longest prefix of decimal digits of [s], most significant first,
    and what follows it. *)
Fixpoint digits (s : string) : list Z * string :=
  match s with
  | EmptyString => ([], EmptyString)
  | String c rest =>
      match digit c with
      | Some d => let '(ds, tl) := digits rest in (d :: ds, tl)
      | None => ([], s)
      end
  end.

Definition natural (ds : list Z) : Z := fold_left (fun acc d => 10 * acc + d) ds 0.

(** [parseFloat(s)] on the strings the program passes: an unsigned decimal
    literal (digits, then optionally a point and digits) at the start of
    [s], whatever follows being ignored; [NaN] when [s] starts with no such
    literal.  Signs, exponents, leading blanks and [Infinity] do not occur
    in the argument of the one call site, ["0." ++ tieBreaker]. *)
Definition parseFloat (s : string) : float :=
  let '(ip, rest) := digits s in
  let fp := match rest with
            | String "."%char tl => fst (digits tl)
            | _ => []
            end in
  match ip, fp with
  | [], [] => nan
  | _, _ => decimal (natural (ip ++ fp)) (length fp)
  end.

(** [a.sort((x, y) => x - y)] and [a.sort((x, y) => y - x)] on integers. *)
Definition sortAscending (a : list Z) : list Z := merge_sort Z.le a.
Definition sortDescending (a : list Z) : list Z := merge_sort (flip Z.le) a.

(** [a.includes(x)]. *)
Definition includes (x : Z) (a : list Z) : bool := existsb (Z.eqb x) a.

(** [a[i] === v] for an array of integers ([undefined] out of range). *)
Definition at_is (a : list Z) (i : nat) (v : Z) : bool :=
  match a !! i with
  | Some x => x =? v
  | None => false
  end.

(** [Math.max(...a)]: [None] stands for [-Infinity], the value on the empty
    array. *)
Definition Math_max (a : list Z) : option Z :=
  fold_left (fun acc r => match acc with
                          | None => Some r
                          | Some m => Some (Z.max m r)
                          end) a None.

(** A JS object whose property names are the decimal strings of integers.
    The name is kept as the integer itself: below [10^21], [String] and
    [parseInt(_, 10)] convert between the two without loss.  The list is in the order
    [Object.keys] enumerates: array-index names (0 .. 2^32 - 2) in
    ascending numeric order first, then the other names in the order of
    their creation. *)
Definition object : Type := list (Z * Z).

Definition isIndex (k : Z) : bool := (0 <=? k) && (k <? 2 ^ 32 - 1).

(** [o[k]]. *)
Fixpoint get (k : Z) (o : object) : option Z :=
  match o with
  | [] => None
  | (k', v) :: rest => if k' =? k then Some v else get k rest
  end.

(** Where a new property named [k] goes. *)
Fixpoint create (k v : Z) (o : object) : object :=
  match o with
  | [] => [(k, v)]
  | (k', v') :: rest =>
      if isIndex k && (negb (isIndex k') || (k <? k'))
      then (k, v) :: o
      else (k', v') :: create k v rest
  end.

Fixpoint update (k v : Z) (o : object) : object :=
  match o with
  | [] => []
  | (k', v') :: rest => if k' =? k then (k', v) :: rest else (k', v') :: update k v rest
  end.

(** [o[k] = v]. *)
Definition set (k v : Z) (o : object) : object :=
  match get k o with
  | Some _ => update k v o
  | None => create k v o
  end.

Definition Object_keys (o : object) : list Z := map fst o.
Definition Object_values (o : object) : list Z := map snd o.

(** [x || 0] for [x] an integer or [undefined]. *)
Definition or0 (x : option Z) : Z :=
  match x with
  | Some v => v
  | None => 0
  end.

(** [x === y] and [x !== y] between an integer [x] and a number [y] that
    is an integer or, as [None], no integer at all: [NaN], which
    [parseInt(undefined, 10)] returns, or [-Infinity], which [Math.max()]
    returns.  Neither is equal to an integer. *)
Definition same (x : Z) (y : option Z) : bool :=
  match y with
  | Some k => x =? k
  | None => false
  end.

Definition differ (x : Z) (y : option Z) : bool := negb (same x y).

(** The names that every object literal inherits from [Object.prototype]:
    [o[k]] finds a function (or, for [__proto__], an object) under them when
    [o] has no own property [k]. *)
Definition Object_prototype : list string :=
  [ "constructor"; "hasOwnProperty"; "isPrototypeOf"; "propertyIsEnumerable";
    "toLocaleString"; "toString"; "valueOf"; "__proto__";
    "__defineGetter__"; "__defineSetter__"; "__lookupGetter__"; "__lookupSetter__" ]%string.

End Js.

(** ** Cards and the hand evaluator *)

Record Card := { suit : string; number : Z }.

(** [toRank]: number (1-13) to rank (2-14), the ace high. *)
Definition toRank (card : Card) : Z := if number card =? 1 then 14 else number card.

Definition isFlush (suits : list string) : bool :=
  forallb (fun s => match suits !! 0%nat with
                    | Some s0 => String.eqb s s0
                    | None => false
                    end) suits.

Definition isA5Straight (ranks : list Z) : bool :=
  String.eqb (Js.JSON_stringify ranks) (Js.JSON_stringify [2; 3; 4; 5; 14]).

Definition isNormalStraight (ranks : list Z) : bool :=
  forallb (fun b => b) (imap (fun i rank =>
                      (i =? 0)%nat ||
                      match ranks !! (i - 1)%nat with
                      | Some prev => rank =? prev + 1
                      | None => false
                      end) ranks).

Definition isStraight (ranks : list Z) : bool := isNormalStraight ranks || isA5Straight ranks.

(** The [reduce] that counts the cards of each rank. *)
Definition countRanks (ranks : list Z) : Js.object :=
  fold_left (fun acc rank => Js.set rank (Js.or0 (Js.get rank acc) + 1) acc) ranks [].

Definition countsValues (ranks : list Z) : list Z :=
  Js.sortDescending (Js.Object_values (countRanks ranks)).

(** The [if]/[else if] chain that sets [score], over the constants bound
    before it. *)
Definition score (isFlush isStraight : bool) (ranks countsValues : list Z) : Z :=
  if isStraight && isFlush && Js.includes 14 ranks && Js.includes 13 ranks then 900
  else if isStraight && isFlush then 800
  else if Js.at_is countsValues 0 4 then 700
  else if Js.at_is countsValues 0 3 && Js.at_is countsValues 1 2 then 600
  else if isFlush then 500
  else if isStraight then 400
  else if Js.at_is countsValues 0 3 then 300
  else if Js.at_is countsValues 0 2 && Js.at_is countsValues 1 2 then 200
  else if Js.at_is countsValues 0 2 then 100
  else 0.

Definition tieBreaker (ranks : list Z) : string :=
  Js.join "" (rev (map (fun r => Js.padStart 2 "0" (Js.String_ r)) ranks)).

(** [ranks], [suits], [score] and [parseFloat(`0.${tieBreaker}`)] as
    [evaluateHand] binds them for a hand of five cards. *)
Definition handRanks (cards : list Card) : list Z := Js.sortAscending (map toRank cards).
Definition handSuits (cards : list Card) : list string := map suit cards.

Definition handScore (cards : list Card) : Z :=
  let ranks := handRanks cards in
  let suits := handSuits cards in
  score (isFlush suits) (isStraight ranks) ranks (countsValues ranks).

Definition fraction (ranks : list Z) : float :=
  Js.parseFloat ("0." ++ tieBreaker ranks).

Definition evaluateHand (cards : option (list Card)) : float :=
  match cards with
  | None => 0%float
  | Some cards =>
      if negb (length cards =? 5)%nat then 0%float
      else (Js.Num (handScore cards) + fraction (handRanks cards))%float
  end.

(** ** The draw selector *)

(** The [reduce] of [decideDraw], over the cards in hand order. *)
Definition countCards (cards : list Card) : Js.object :=
  fold_left (fun acc card =>
               let rank := toRank card in
               Js.set rank (Js.or0 (Js.get rank acc) + 1) acc) cards [].

(** [Object.keys(counts).find((rank) => counts[rank] === n)], then
    [parseInt(_, 10)]: [None] when no rank occurs [n] times. *)
Definition findRank (counts : Js.object) (n : Z) : option Z :=
  find (fun rank => match Js.get rank counts with
                    | Some c => c =? n
                    | None => false
                    end) (Js.Object_keys counts).

(** The last [cards.map], whose callback reads and sets the local [kept]. *)
Fixpoint keepFirstMax (maxRank : option Z) (kept : bool) (cards : list Card) : list bool :=
  match cards with
  | [] => []
  | card :: rest =>
      if Js.same (toRank card) maxRank && negb kept
      then false :: keepFirstMax maxRank true rest
      else true :: keepFirstMax maxRank kept rest
  end.

Definition decideDraw (cards : list Card) (handStrength : float) : list bool :=
  if (400 <=? handStrength)%float then [false; false; false; false; false]
  else if (300 <=? handStrength)%float then
    let counts := countCards cards in
    let threeRank := findRank counts 3 in
    map (fun card => Js.differ (toRank card) threeRank) cards
  else if (200 <=? handStrength)%float then
    let counts := countCards cards in
    let singleRank := findRank counts 1 in
    map (fun card => Js.same (toRank card) singleRank) cards
  else if (100 <=? handStrength)%float then
    let counts := countCards cards in
    let pairRank := findRank counts 2 in
    map (fun card => Js.differ (toRank card) pairRank) cards
  else
    let ranks := map toRank cards in
    let maxRank := Js.Math_max ranks in
    keepFirstMax maxRank false cards.

(** ** The snapshot the engine passes to every hook ([GameInfo]) *)

Module Snapshot.

(** [player.round]: either field may be missing. *)
Record RoundInfo := { betPoint : option Z; cards : option (list Card) }.

Record Player := { point : Z; round : RoundInfo }.

Record GameInfo := {
  currentRound : Z;
  pot : Z;
  minBetPoint : Z;
  players : gmap string Player;
  winner : option string
}.

End Snapshot.

Import Snapshot.

(** ** The session and its hooks *)

(** The fields of [JsPlayer] that [test()] reports. *)
Record JsPlayer := { id : string; name : string; round : Z; win : Z }.

(** [new JsPlayer(id, name)]. *)
Definition constructor (id name : string) : JsPlayer :=
  {| id := id; name := name; round := 0; win := 0 |}.

(** A method of the class: it reads and may write the fields of [this] and
    returns a value. *)
Definition Method (A : Type) : Type := JsPlayer -> A * JsPlayer.

#[global] Instance Method_ret : MRet Method := fun A x this => (x, this).
#[global] Instance Method_bind : MBind Method :=
  fun A B f m this => let '(x, this') := m this in f x this'.

Definition this : Method JsPlayer := fun this => (this, this).
Definition setRound (r : Z) : Method unit :=
  fun this => (tt, {| id := id this; name := name this; round := r; win := win this |}).
Definition setWin (w : Z) : Method unit :=
  fun this => (tt, {| id := id this; name := name this; round := round this; win := w |}).

Definition startRound (data : GameInfo) : Method unit :=
  setRound (currentRound data).

(** The points are integers and the arithmetic is exact, in [Z] and [Q];
    it is the arithmetic of the program within [safePoints] (defined below):
    there [diff], [stack] and [raiseAmount] are exact in binary64,
    [data.pot * 0.5] is exact, and [data.pot * 0.1], which is only compared
    with the integer [diff], lies on the same side of every integer as the
    exact tenth of the pot (it is that very integer when the pot is a
    multiple of 10).  [data.players[this.name]] is the lookup of the program
    for a name of [ownKey]; for a name inherited from [Object.prototype] and
    no own entry the program finds a function, and [self.round.cards]
    throws. *)
Definition decideBetPoint (data : GameInfo) : Method Z :=
  me ← this;
  mret
    match players data !! name me with
    | None => -1
    | Some self =>
        let myHandStrength := evaluateHand (cards (Snapshot.round self)) in
        let diff := minBetPoint data - default 0 (betPoint (Snapshot.round self)) in
        let stack := point self - diff in
        if (200 <=? myHandStrength)%float then
          if minBetPoint data =? 0 then Qfloor (inject_Z (pot data) * 0.5)
          else
            let raiseAmount := minBetPoint data * 2 in
            Z.min stack raiseAmount
        else if (100 <=? myHandStrength)%float then
          if Qlt_le_dec (inject_Z (pot data) * 0.5) (inject_Z (minBetPoint data)) then -1
          else 0
        else if minBetPoint data =? 0 then 0
        else if Qlt_le_dec (inject_Z diff) (inject_Z (pot data) * 0.1) then 0
        else -1
    end.

(** The lookup is the program's for a name of [ownKey], as in
    [decideBetPoint]. *)
Definition drawCard (data : GameInfo) : Method (list bool) :=
  me ← this;
  let self := players data !! name me in
  let cards := default [] (self ≫= fun self => cards (Snapshot.round self)) in
  let myHandStrength := evaluateHand (Some cards) in
  let drawDecision := decideDraw cards myHandStrength in
  mret drawDecision.

Definition endRound (data : GameInfo) : Method unit :=
  me ← this;
  if bool_decide (winner data = Some (name me)) then setWin (win me + 1)
  else mret tt.

(** The entry points the engine calls. *)
Definition start (data : GameInfo) : Method unit := startRound data.
Definition bet (data : GameInfo) : Method Z := decideBetPoint data.
Definition draw (data : GameInfo) : Method (list bool) := drawCard data.
Definition end_ (data : GameInfo) : Method unit := endRound data.

Definition test : Method JsPlayer := this.

(** ** The specification's data model and reference definitions *)

(** A card of the data model: its number is an integer from 1 to 13. *)
Definition validCard (c : Card) : Prop := 1 <= number c <= 13.

(** A hand: exactly five cards of the data model. *)
Definition validHand (cards : list Card) : Prop :=
  length cards = 5%nat /\ Forall validCard cards.

(** A player name under which a snapshot has an entry or nothing at all:
    it is not a name that [Object.prototype] defines. *)
Definition ownKey (k : string) : Prop := ~ In k Js.Object_prototype.

(** The amounts of the snapshot that the betting policy computes with are
    integers of magnitude at most [2^48], and the pot is not negative.  All
    the values the program derives from them are then integers below [2^53],
    which binary64 holds exactly. *)
Definition maxPoints : Z := 2 ^ 48.

Definition safePoints (me : JsPlayer) (data : GameInfo) : Prop :=
  0 <= pot data <= maxPoints /\
  - maxPoints <= minBetPoint data <= maxPoints /\
  forall self,
    players data !! name me = Some self ->
    - maxPoints <= point self <= maxPoints /\
    - maxPoints <= default 0 (betPoint (Snapshot.round self)) <= maxPoints.


(** The ten category scores. *)
Definition categories : list Z := [0; 100; 200; 300; 400; 500; 600; 700; 800; 900].

Module Spec.

(** Rank mapping: number 1 maps to rank 14, numbers 2-13 to themselves. *)
Definition rank (c : Card) : Z :=
  match number c with
  | 1 => 14
  | n => n
  end.

(** The ranks of the hand, sorted ascending. *)
Definition sortedRanks (hand : list Card) : list Z := merge_sort Z.le (map rank hand).

(** Flush: all five suits identical. *)
Definition flush (hand : list Card) : bool :=
  forallb (fun c1 => forallb (fun c2 => String.eqb (suit c1) (suit c2)) hand) hand.

(** Straight: five consecutive ranks with no gaps, or the low straight
    2, 3, 4, 5, 14. *)
Definition straight (ranks : list Z) : bool :=
  match ranks with
  | lo :: _ =>
      bool_decide (ranks = [lo; lo + 1; lo + 2; lo + 3; lo + 4])
      || bool_decide (ranks = [2; 3; 4; 5; 14])
  | [] => false
  end.

(** Rank-count multiset: the ranks grouped by value, and the sizes of the
    groups sorted descending. *)
Definition groupSizes (ranks : list Z) : list Z :=
  merge_sort (flip Z.le)
    (map (fun r => Z.of_nat (count_occ Z.eq_dec ranks r)) (remove_dups ranks)).

(** First match wins. *)
Definition firstMatch (rules : list (bool * Z)) (otherwise : Z) : Z :=
  match find fst rules with
  | Some (_, v) => v
  | None => otherwise
  end.

(** The category of section 4.1, in its strict priority order, from the
    sorted ranks and the flush test. *)
Definition categoryOf (ranks : list Z) (flush : bool) : Z :=
  let straight := straight ranks in
  let sizes := groupSizes ranks in
  firstMatch
    [ (straight && flush && bool_decide (14 ∈ ranks) && bool_decide (13 ∈ ranks), 900);
      (straight && flush, 800);
      (bool_decide (head sizes = Some 4), 700);
      (bool_decide (sizes = [3; 2]), 600);
      (flush, 500);
      (straight, 400);
      (bool_decide (head sizes = Some 3), 300);
      (bool_decide (take 2 sizes = [2; 2]), 200);
      (bool_decide (head sizes = Some 2), 100) ]
    0.

Definition category (hand : list Card) : Z := categoryOf (sortedRanks hand) (flush hand).





End Spec.

(** [i] is the first position of [ranks] that holds the maximum of [ranks]. *)
Definition firstMaxAt (ranks : list Z) (i : nat) : Prop :=
  exists m, ranks !! i = Some m /\
            (forall r, In r ranks -> r <= m) /\
            (forall j, (j < i)%nat -> ranks !! j <> Some m).

(** Calling [hook] a second time, right after a first call, returns the same
    value and leaves the session as the first call left it. *)
Definition idempotent {A : Type} (hook : Method A) (me : JsPlayer) : Prop :=
  snd (hook (snd (hook me))) = snd (hook me) /\
  fst (hook (snd (hook me))) = fst (hook me).

(** ** Enumeration of the sorted rank lists of valid hands *)

Definition allRanks : list Z := [2; 3; 4; 5; 6; 7; 8; 9; 10; 11; 12; 13; 14].

(** The ascending lists of [n] ranks, none below [lo]. *)
Fixpoint sortedLists (n : nat) (lo : Z) : list (list Z) :=
  match n with
  | O => [[]]
  | S n' => flat_map (fun r => map (cons r) (sortedLists n' r)) (filter (Z.le lo) allRanks)
  end.

(** What is computed on every sorted rank list: the score is the category
    of the specification, the fraction lies strictly between 0 and 1, and
    with each category [c] the sum lies in [(c, c + 1)] and in [[0, 901)]. *)
Definition checkScore (ranks : list Z) : bool :=
  forallb (fun fl => score fl (isStraight ranks) ranks (countsValues ranks)
                     =? Spec.categoryOf ranks fl) [true; false].

Definition checkBand (ranks : list Z) : bool :=
  let f := fraction ranks in
  (0 <? f)%float && (f <? 1)%float &&
  forallb (fun c => let v := (Js.Num c + f)%float in
                    (Js.Num c <? v)%float && (v <? Js.Num (c + 1))%float &&
                    (0 <=? v)%float && (v <? 901)%float) categories.

(** On every ascending list [low] of four ranks: under each category score
    of [cs], a higher fifth rank gives a strictly greater strength. *)
Definition checkHigh (cs : list float) (low : list Z) : bool :=
  let fs := map (fun r => (r, fraction (low ++ [r]))) allRanks in
  forallb (fun '(a, fa) =>
    forallb (fun '(b, fb) =>
      negb (b <? a) || forallb (fun c => (c + fb <? c + fa)%float) cs) fs) fs.

(** The integer whose decimal digits are the tie-breaker of a list of
    two-digit ranks, and the test that [fraction] is that integer divided by
    [10^10] with the division of the processor (both are exact binary64
    numbers, and IEEE division rounds the exact quotient once). *)
Definition tieNumber (ranks : list Z) : Z :=
  fold_left (fun acc r => 100 * acc + r) (rev ranks) 0.

Definition checkDivision (ranks : list Z) : bool :=
  PrimFloat.Leibniz.eqb (fraction ranks)
    (of_uint63 (Uint63.of_Z (tieNumber ranks)) / of_uint63 (Uint63.of_Z (10 ^ 10)))%float.

(** ** Concrete inputs

    The hand and the snapshot of the repository's test suite, the one-pair
    hand of the specification's scenarios, and a few more hands. *)

Definition scenarioHand : list Card :=
  [ {| suit := "Clubs"; number := 1 |};
    {| suit := "Diamonds"; number := 7 |};
    {| suit := "Spades"; number := 6 |};
    {| suit := "Spades"; number := 9 |};
    {| suit := "Clubs"; number := 8 |} ].

Definition kingHighHand : list Card :=
  [ {| suit := "Spades"; number := 9 |};
    {| suit := "Hearts"; number := 13 |};
    {| suit := "Diamonds"; number := 7 |};
    {| suit := "Clubs"; number := 8 |};
    {| suit := "Spades"; number := 6 |} ].

Definition onePairHand : list Card :=
  [ {| suit := "Clubs"; number := 7 |};
    {| suit := "Diamonds"; number := 7 |};
    {| suit := "Spades"; number := 3 |};
    {| suit := "Spades"; number := 9 |};
    {| suit := "Hearts"; number := 12 |} ].

Definition straightHand : list Card :=
  [ {| suit := "Clubs"; number := 1 |};
    {| suit := "Hearts"; number := 2 |};
    {| suit := "Clubs"; number := 3 |};
    {| suit := "Spades"; number := 5 |};
    {| suit := "Clubs"; number := 4 |} ].

Definition twoPairHand : list Card :=
  [ {| suit := "Clubs"; number := 7 |};
    {| suit := "Diamonds"; number := 7 |};
    {| suit := "Spades"; number := 3 |};
    {| suit := "Hearts"; number := 3 |};
    {| suit := "Hearts"; number := 12 |} ].

(** [PlayerTestGameData] of the test suite, with the given pot, minimum bet,
    cards of [team2] and winner. *)
Definition testPlayer (point : Z) (hand : list Card) : Player :=
  {| point := point; Snapshot.round := {| betPoint := Some 0; cards := Some hand |} |}.

Definition snapshot (pot minBetPoint : Z) (hand : list Card) (winner : option string)
  : GameInfo :=
  {| currentRound := 1;
     pot := pot;
     minBetPoint := minBetPoint;
     players := <["Player1" := testPlayer 37600 []]>
                (<["Player2" := testPlayer 17600 []]>
                 (<["Player3" := testPlayer 24800 []]>
                  (<["team2" := testPlayer 20000 hand]> ∅)));
     winner := winner |}.

Definition testData (hand : list Card) (winner : option string) : GameInfo :=
  snapshot 0 0 hand winner.

(** The same snapshot without the entry of [team2]. *)
Definition testDataWithoutSelf : GameInfo :=
  {| currentRound := 1;
     pot := 0;
     minBetPoint := 0;
     players := <["Player1" := testPlayer 37600 []]>
                (<["Player2" := testPlayer 17600 []]>
                 (<["Player3" := testPlayer 24800 []]> ∅));
     winner := None |}.

(** [new Players.team2('1', 'team2')]. *)
Definition testSession : JsPlayer := constructor "1" "team2".

(** ** Definitions for the further properties *)

(** The number of entries of [ranks] equal to [r]. *)
Definition occurrences (r : Z) (ranks : list Z) : Z :=
  Z.of_nat (count_occ Z.eq_dec ranks r).

Definition sumValues (values : list Z) : Z := fold_right Z.add 0 values.

(** The number of cards a decision keeps. *)
Definition keptCount (decision : list bool) : Z :=
  Z.of_nat (count_occ bool_dec decision false).

(** Exactly one of the thirteen ranks occurs [n] times in [ranks]. *)
Definition singleRank (n : Z) (ranks : list Z) : bool :=
  match filter (fun r => occurrences r ranks = n) allRanks with
  | [_] => true
  | _ => false
  end.

(** What is computed on every sorted rank list: with a score of 300, 200 or
    100, exactly one rank occurs three times, once or twice. *)
Definition checkCounts (ranks : list Z) : bool :=
  forallb (fun fl =>
             let s := score fl (isStraight ranks) ranks (countsValues ranks) in
             (negb (s =? 300) || singleRank 3 ranks) &&
             (negb (s =? 200) || singleRank 1 ranks) &&
             (negb (s =? 100) || singleRank 2 ranks)) [true; false].

(** Lexicographic comparison of two lists of ranks of the same length. *)
Fixpoint lexLt (l1 l2 : list Z) : Prop :=
  match l1, l2 with
  | x :: l1', y :: l2' => x < y \/ (x = y /\ lexLt l1' l2')
  | _, _ => False
  end.

(** The enumerated rank lists as pairs of the tie-breaker integer and the
    fraction, in the order of the integers. *)
Definition tieLe (p q : Z * float) : Prop := fst p <= fst q.

#[global] Instance tieLe_dec : RelDecision tieLe := fun p q => Z_le_dec (fst p) (fst q).

Definition tiePairs : list (Z * float) :=
  merge_sort tieLe (map (fun ranks => (tieNumber ranks, fraction ranks)) (sortedLists 5 2)).

(** Along a list of pairs: the integers increase strictly, and so do the
    sums of the fractions with each of [cs]. *)
Fixpoint checkChain (cs : list float) (l : list (Z * float)) : bool :=
  match l with
  | p :: (q :: _) as tl =>
      (fst p <? fst q) && forallb (fun c => (c + snd p <? c + snd q)%float) cs
      && checkChain cs tl
  | _ => true
  end.

(** What is computed on every sorted rank list: the score is 900 exactly
    on the flush of 10, 11, 12, 13, 14. *)
Definition checkRoyal (ranks : list Z) : bool :=
  forallb (fun fl =>
             Bool.eqb (score fl (isStraight ranks) ranks (countsValues ranks) =? 900)
                      (fl && bool_decide (ranks = [10; 11; 12; 13; 14]))) [true; false].

(** In a list of pairs related by [chainRel], the integers increase and so
    do the strengths under every category score of [cs]. *)
Definition chainRel (cs : list float) (p q : Z * float) : Prop :=
  fst p < fst q /\ forall c, In c cs -> (c + snd p <? c + snd q)%float = true.

(** Two more hands: a straight from 9 to the king, and the royal flush. *)
Definition kingStraightHand : list Card :=
  [ {| suit := "Clubs"; number := 9 |};
    {| suit := "Hearts"; number := 10 |};
    {| suit := "Clubs"; number := 11 |};
    {| suit := "Spades"; number := 12 |};
    {| suit := "Clubs"; number := 13 |} ].

Definition royalFlushHand : list Card :=
  [ {| suit := "Hearts"; number := 1 |};
    {| suit := "Hearts"; number := 13 |};
    {| suit := "Hearts"; number := 12 |};
    {| suit := "Hearts"; number := 11 |};
    {| suit := "Hearts"; number := 10 |} ].

(** ** Sequences of hook calls *)

(** One call of the engine. *)
Inductive Call :=
| CallStart (data : GameInfo)
| CallBet (data : GameInfo)
| CallDraw (data : GameInfo)
| CallEnd (data : GameInfo).

(** The session after one call, and after a sequence of calls in order. *)
Definition call (c : Call) (me : JsPlayer) : JsPlayer :=
  match c with
  | CallStart data => snd (start data me)
  | CallBet data => snd (bet data me)
  | CallDraw data => snd (draw data me)
  | CallEnd data => snd (end_ data me)
  end.

Definition run (calls : list Call) (me : JsPlayer) : JsPlayer :=
  fold_left (fun me c => call c me) calls me.

(** The number of end calls of the sequence whose winner is [who], and the
    round of the last start call ([r] when there is none). *)
Fixpoint wins (who : string) (calls : list Call) : Z :=
  match calls with
  | [] => 0
  | CallEnd data :: rest =>
      (if bool_decide (winner data = Some who) then 1 else 0) + wins who rest
  | _ :: rest => wins who rest
  end.

Definition lastRound (r : Z) (calls : list Call) : Z :=
  fold_left (fun r c => match c with
                        | CallStart data => currentRound data
                        | _ => r
                        end) calls r.

(** The calls of the test suite, in its order. *)
Definition testRun : list Call :=
  [ CallStart (testData [] None);
    CallBet (testData scenarioHand None);
    CallBet (testData scenarioHand None);
    CallDraw (testData scenarioHand None);
    CallDraw (testData scenarioHand None);
    CallEnd (testData scenarioHand (Some "team2")) ].

(** * Verification *)

(** ** The order of binary64 numbers

    [<?] and [<=?] on floats are specified by [SFcompare] on their
    mantissa/exponent form; the comparison is [None] on [NaN]. *)

Section FloatOrder.

Local Ltac sf_cases :=
  repeat match goal with
         | s : bool |- _ => destruct s
         end;
  simpl; try congruence.

Local Ltac sf_order :=
  repeat match goal with
         | |- context [Pos.compare_cont Eq ?m ?n] =>
             change (Pos.compare_cont Eq m n) with (Pos.compare m n);
             destruct (Pos.compare_spec m n)
         | |- context [Z.compare ?e ?f] => destruct (Z.compare_spec e f)
         end;
  simpl; intros; try congruence; try lia.

Lemma SFcompare_lt_le x y z :
  SFcompare x y = Some Lt ->
  SFcompare y z = Some Lt \/ SFcompare y z = Some Eq ->
  SFcompare x z = Some Lt.
Proof.
  destruct x as [sx|sx| |sx mx ex], y as [sy|sy| |sy my ey], z as [sz|sz| |sz mz ez];
    sf_cases; try (intros ? [?|?]; congruence); sf_order; intuition congruence.
Qed.

Lemma SFcompare_le_lt x y z :
  SFcompare x y = Some Lt \/ SFcompare x y = Some Eq ->
  SFcompare y z = Some Lt ->
  SFcompare x z = Some Lt.
Proof.
  destruct x as [sx|sx| |sx mx ex], y as [sy|sy| |sy my ey], z as [sz|sz| |sz mz ez];
    sf_cases; try (intros [?|?] ?; congruence); sf_order; intuition congruence.
Qed.


Lemma SFcompare_lt_gt x y : SFcompare x y = Some Lt -> SFcompare y x = Some Gt.
Proof.
  destruct x as [sx|sx| |sx mx ex], y as [sy|sy| |sy my ey]; sf_cases; sf_order.
Qed.


Local Ltac to_spec :=
  rewrite ?FloatAxioms.ltb_spec, ?FloatAxioms.leb_spec; unfold SFltb, SFleb.

Lemma ltb_leb_trans (x y z : float) :
  (x <? y)%float = true -> (y <=? z)%float = true -> (x <? z)%float = true.
Proof.
  to_spec. intros Hxy Hyz.
  rewrite (SFcompare_lt_le (Prim2SF x) (Prim2SF y) (Prim2SF z)); [reflexivity | |].
  - destruct (SFcompare (Prim2SF x) (Prim2SF y)) as [[]|]; congruence.
  - destruct (SFcompare (Prim2SF y) (Prim2SF z)) as [[]|]; auto; congruence.
Qed.

Lemma leb_ltb_trans (x y z : float) :
  (x <=? y)%float = true -> (y <? z)%float = true -> (x <? z)%float = true.
Proof.
  to_spec. intros Hxy Hyz.
  rewrite (SFcompare_le_lt (Prim2SF x) (Prim2SF y) (Prim2SF z)); [reflexivity | |].
  - destruct (SFcompare (Prim2SF x) (Prim2SF y)) as [[]|]; auto; congruence.
  - destruct (SFcompare (Prim2SF y) (Prim2SF z)) as [[]|]; congruence.
Qed.

Lemma ltb_leb (x y : float) : (x <? y)%float = true -> (x <=? y)%float = true.
Proof.
  to_spec. destruct (SFcompare (Prim2SF x) (Prim2SF y)) as [[]|]; congruence.
Qed.

Lemma ltb_not_leb (x y : float) : (x <? y)%float = true -> (y <=? x)%float = false.
Proof.
  to_spec. intros Hxy.
  destruct (SFcompare (Prim2SF x) (Prim2SF y)) as [[]|] eqn:E; try congruence.
  now rewrite (SFcompare_lt_gt _ _ E).
Qed.


End FloatOrder.

(** ** Sorting, permutations and the enumeration of rank lists *)

Lemma toRank_valid (c : Card) : validCard c -> 2 <= toRank c <= 14.
Proof.
  unfold validCard, toRank. destruct (Z.eqb_spec (number c) 1); lia.
Qed.

Lemma Spec_rank_toRank (c : Card) : Spec.rank c = toRank c.
Proof.
  unfold Spec.rank, toRank. destruct (number c) as [|[p|p|]|p]; reflexivity.
Qed.

Lemma Spec_sortedRanks_handRanks (cards : list Card) :
  Spec.sortedRanks cards = handRanks cards.
Proof.
  unfold Spec.sortedRanks, handRanks, Js.sortAscending. f_equal.
  apply map_ext. intros c. apply Spec_rank_toRank.
Qed.

Lemma handRanks_Permutation (cards : list Card) : handRanks cards ≡ₚ map toRank cards.
Proof. apply merge_sort_Permutation. Qed.

Lemma handRanks_sorted (cards : list Card) : StronglySorted Z.le (handRanks cards).
Proof. apply (StronglySorted_merge_sort Z.le). Qed.

Lemma handRanks_length (cards : list Card) : length (handRanks cards) = length cards.
Proof.
  rewrite (Permutation_length (handRanks_Permutation cards)). apply length_map.
Qed.

(** The sorted ranks do not depend on the order of the cards. *)
Lemma handRanks_perm (cards cards' : list Card) :
  cards ≡ₚ cards' -> handRanks cards = handRanks cards'.
Proof.
  intros Hp. apply (StronglySorted_unique Z.le); try apply handRanks_sorted.
  rewrite !handRanks_Permutation. now apply Permutation_map.
Qed.

Lemma allRanks_spec (r : Z) : 2 <= r <= 14 -> In r allRanks.
Proof.
  intros Hr. unfold allRanks. simpl.
  assert (r = 2 \/ r = 3 \/ r = 4 \/ r = 5 \/ r = 6 \/ r = 7 \/ r = 8 \/ r = 9 \/
          r = 10 \/ r = 11 \/ r = 12 \/ r = 13 \/ r = 14) by lia.
  intuition.
Qed.

Lemma sortedLists_complete (n : nat) :
  forall (lo : Z) (l : list Z),
    length l = n -> StronglySorted Z.le l ->
    Forall (fun r => lo <= r /\ 2 <= r <= 14) l ->
    In l (sortedLists n lo).
Proof.
  induction n as [|n IH]; intros lo l Hlen Hs Hb.
  - destruct l; [now left | discriminate].
  - destruct l as [|r l]; [discriminate|]. simpl in Hlen.
    inversion Hs as [|? ? Hs' Hr]; subst. inversion Hb as [|? ? [Hlo Hr2] Hb']; subst.
    simpl. apply in_flat_map. exists r. split.
    + apply list_elem_of_In, list_elem_of_filter. split; [exact Hlo|].
      apply list_elem_of_In, allRanks_spec, Hr2.
    + apply in_map. apply IH; [lia | exact Hs' |].
      rewrite Forall_forall in *. intros x Hx. split; [apply Hr, Hx | apply Hb', Hx].
Qed.

Lemma handRanks_bounds (cards : list Card) :
  Forall validCard cards -> Forall (fun r => 2 <= r /\ 2 <= r <= 14) (handRanks cards).
Proof.
  intros Hv. rewrite (handRanks_Permutation cards).
  apply Forall_map. eapply Forall_impl; [exact Hv|].
  intros c Hc. simpl. pose proof (toRank_valid c Hc). lia.
Qed.

(** The sorted ranks of a valid hand are among the enumerated lists. *)
Lemma handRanks_enum (cards : list Card) :
  validHand cards -> In (handRanks cards) (sortedLists 5 2).
Proof.
  intros [Hlen Hv]. apply sortedLists_complete.
  - now rewrite handRanks_length.
  - apply handRanks_sorted.
  - now apply handRanks_bounds.
Qed.

(** ** The flush test *)

Lemma isFlush_spec (suits : list string) :
  isFlush suits = true <-> forall s1 s2, In s1 suits -> In s2 suits -> s1 = s2.
Proof.
  unfold isFlush. rewrite forallb_forall. destruct suits as [|s0 r].
  - split; [intros _ ? ? [] | intros _ ? []].
  - cbn [lookup list_lookup]. split.
    + intros H s1 s2 H1 H2.
      apply H, String.eqb_eq in H1. apply H, String.eqb_eq in H2. congruence.
    + intros H s Hs. apply String.eqb_eq. apply H; [exact Hs | now left].
Qed.

Lemma Spec_flush_isFlush (cards : list Card) : Spec.flush cards = isFlush (handSuits cards).
Proof.
  apply eq_true_iff_eq. rewrite isFlush_spec. unfold Spec.flush, handSuits.
  rewrite forallb_forall. split.
  - intros H s1 s2 H1 H2.
    apply in_map_iff in H1. destruct H1 as (c1 & <- & H1).
    apply in_map_iff in H2. destruct H2 as (c2 & <- & H2).
    specialize (H c1 H1). rewrite forallb_forall in H. now apply String.eqb_eq, H.
  - intros H c1 H1. rewrite forallb_forall. intros c2 H2.
    apply String.eqb_eq, H; now apply in_map.
Qed.

Lemma isFlush_perm (suits suits' : list string) :
  suits ≡ₚ suits' -> isFlush suits = isFlush suits'.
Proof.
  intros Hp. apply eq_true_iff_eq. rewrite !isFlush_spec. split; intros H s1 s2 H1 H2.
  - apply H; eapply Permutation_in; try eassumption; now symmetry.
  - apply H; eapply Permutation_in; eassumption.
Qed.

(** ** The evaluator on five cards *)

Lemma evaluateHand_five (cards : list Card) :
  length cards = 5%nat ->
  evaluateHand (Some cards) = (Js.Num (handScore cards) + fraction (handRanks cards))%float.
Proof.
  intros Hlen. unfold evaluateHand. now rewrite Hlen.
Qed.

Lemma evaluateHand_not_five (cards : list Card) :
  length cards <> 5%nat -> evaluateHand (Some cards) = 0%float.
Proof.
  intros Hlen. unfold evaluateHand.
  destruct (Nat.eqb_spec (length cards) 5); [contradiction | reflexivity].
Qed.

Lemma score_categories (fl st : bool) (ranks cv : list Z) :
  In (score fl st ranks cv) categories.
Proof.
  unfold score, categories.
  repeat match goal with
         | |- context [if ?b then _ else _] => destruct b
         end; simpl; tauto.
Qed.

(** The score is independent of the order of the cards. *)
Lemma handScore_perm (cards cards' : list Card) :
  cards ≡ₚ cards' -> handScore cards = handScore cards'.
Proof.
  intros Hp. unfold handScore.
  rewrite (handRanks_perm _ _ Hp).
  rewrite (isFlush_perm (handSuits cards) (handSuits cards')); [reflexivity|].
  now apply Permutation_map.
Qed.

(** ** What holds on every enumerated rank list, by computation *)

Lemma checkScore_all : forallb checkScore (sortedLists 5 2) = true.
Proof. vm_compute. reflexivity. Qed.

Lemma checkBand_all : forallb checkBand (sortedLists 5 2) = true.
Proof. vm_compute. reflexivity. Qed.

Lemma checkHigh_all : forallb (checkHigh (map Js.Num categories)) (sortedLists 4 2) = true.
Proof. vm_compute. reflexivity. Qed.

Lemma checkDivision_all : forallb checkDivision (sortedLists 5 2) = true.
Proof. vm_compute. reflexivity. Qed.

(** On a valid hand the score of the program is the category of the
    specification. *)
Lemma handScore_category (cards : list Card) :
  validHand cards -> handScore cards = Spec.category cards.
Proof.
  intros Hv. pose proof (handRanks_enum cards Hv) as Hin.
  pose proof checkScore_all as Hall. rewrite forallb_forall in Hall.
  specialize (Hall _ Hin). unfold checkScore in Hall. rewrite forallb_forall in Hall.
  unfold Spec.category, handScore.
  rewrite Spec_sortedRanks_handRanks, Spec_flush_isFlush.
  apply Z.eqb_eq, Hall. destruct (isFlush (handSuits cards)); simpl; tauto.
Qed.

Lemma handScore_categories (cards : list Card) : In (handScore cards) categories.
Proof. apply score_categories. Qed.

(** On a valid hand, what [parseFloat] returns is the ten-digit integer of
    the tie-breaker divided by [10^10] in binary64. *)
Lemma fraction_division (cards : list Card) :
  validHand cards ->
  fraction (handRanks cards)
  = (of_uint63 (Uint63.of_Z (tieNumber (handRanks cards)))
     / of_uint63 (Uint63.of_Z (10 ^ 10)))%float.
Proof.
  intros Hv. pose proof checkDivision_all as Hall. rewrite forallb_forall in Hall.
  apply FloatAxioms.Leibniz.eqb_spec. apply (Hall _ (handRanks_enum _ Hv)).
Qed.

Lemma band_facts (ranks : list Z) (c : Z) :
  In ranks (sortedLists 5 2) -> In c categories ->
  (0 <? fraction ranks)%float = true /\
  (fraction ranks <? 1)%float = true /\
  (Js.Num c <? Js.Num c + fraction ranks)%float = true /\
  (Js.Num c + fraction ranks <? Js.Num (c + 1))%float = true /\
  (0 <=? Js.Num c + fraction ranks)%float = true /\
  (Js.Num c + fraction ranks <? 901)%float = true.
Proof.
  intros Hin Hc. pose proof checkBand_all as Hall. rewrite forallb_forall in Hall.
  specialize (Hall _ Hin). unfold checkBand in Hall. cbv zeta in Hall.
  rewrite !andb_true_iff, forallb_forall in Hall. destruct Hall as [[H0 H1] Hcs].
  specialize (Hcs _ Hc). cbv zeta in Hcs. rewrite !andb_true_iff in Hcs.
  tauto.
Qed.

(** The next integer above a category score is at most every higher
    category score. *)
Lemma category_gap (c1 c2 : Z) :
  In c1 categories -> In c2 categories -> c1 < c2 ->
  (Js.Num (c1 + 1) <=? Js.Num c2)%float = true.
Proof.
  unfold categories. simpl.
  intros H1 H2 Hlt.
  repeat (destruct H1 as [<-|H1]; [| ]); try contradiction;
    repeat (destruct H2 as [<-|H2]; [| ]); try contradiction;
    try lia; vm_compute; reflexivity.
Qed.

Lemma high_card_facts (low : list Z) (a b c : Z) :
  In (low : list Z) (sortedLists 4 2) -> In a allRanks -> In b allRanks -> In c categories ->
  b < a ->
  (Js.Num c + fraction (low ++ [b]) <? Js.Num c + fraction (low ++ [a]))%float = true.
Proof.
  intros Hlow Ha Hb Hc Hlt.
  pose proof checkHigh_all as Hall. rewrite forallb_forall in Hall.
  specialize (Hall _ Hlow). unfold checkHigh in Hall. cbv zeta in Hall.
  rewrite forallb_forall in Hall.
  specialize (Hall (a, fraction (low ++ [a]))
                (in_map (fun r => (r, fraction (low ++ [r]))) allRanks a Ha)).
  cbv beta iota in Hall. rewrite forallb_forall in Hall.
  specialize (Hall (b, fraction (low ++ [b]))
                (in_map (fun r => (r, fraction (low ++ [r]))) allRanks b Hb)).
  cbv beta iota in Hall.
  apply orb_true_iff in Hall. destruct Hall as [Hall|Hall].
  - apply negb_true_iff, Z.ltb_ge in Hall. lia.
  - rewrite forallb_forall in Hall. apply (Hall (Js.Num c)). now apply in_map.
Qed.

(** ** The hand evaluator: claims C1, C5 and C8 *)

Lemma testSession_ownKey : ownKey (name testSession).
Proof.
  unfold ownKey, Js.Object_prototype. simpl. intuition discriminate.
Defined.

Lemma snapshot_safePoints (pot minBetPoint : Z) (hand : list Card) (winner : option string) :
  0 <= pot <= maxPoints -> - maxPoints <= minBetPoint <= maxPoints ->
  safePoints testSession (snapshot pot minBetPoint hand winner).
Proof.
  intros Hpot Hmin. split; [exact Hpot|]. split; [exact Hmin|].
  intros self Hself. vm_compute in Hself. injection Hself as <-.
  unfold maxPoints. simpl. lia.
Defined.

Lemma validHand_intro (cards : list Card) :
  length cards = 5%nat ->
  forallb (fun c => (1 <=? number c) && (number c <=? 13)) cards = true ->
  validHand cards.
Proof.
  intros Hlen Hall. split; [exact Hlen|].
  apply Forall_forall. intros c Hc. apply list_elem_of_In in Hc.
  rewrite forallb_forall in Hall. specialize (Hall c Hc).
  apply andb_true_iff in Hall. unfold validCard. lia.
Defined.

(** C1.  On every hand of five cards of the data model, [evaluateHand]
    returns a category score plus a tie-breaker: the score is the category
    that the first-match priority order of section 4.1 selects, one of 0, 100,
    ..., 900; the tie-breaker is at least 0 and strictly less than 1; the
    result lies in [[0, 901)]; and a hand of a strictly higher category has a
    strictly greater result than a hand of a lower one, whatever the two
    tie-breakers. *)
Theorem evaluateHand_category_bands (cards other : list Card) :
  validHand cards -> validHand other ->
  let strength := evaluateHand (Some cards) in
  let category := handScore cards in
  let tie := fraction (handRanks cards) in
  strength = (Js.Num category + tie)%float /\
  category = Spec.category cards /\
  In category categories /\
  (0 <=? tie)%float = true /\ (tie <? 1)%float = true /\
  (0 <=? strength)%float = true /\ (strength <? 901)%float = true /\
  (Spec.category cards < Spec.category other ->
   (strength <? evaluateHand (Some other))%float = true).
Proof.
  intros Hv Ho. cbv zeta.
  pose proof (band_facts _ _ (handRanks_enum _ Hv) (handScore_categories cards))
    as (Hf0 & Hf1 & Hlo & Hhi & Hv0 & Hv901).
  rewrite (evaluateHand_five cards (proj1 Hv)).
  repeat split; auto using handScore_category, handScore_categories, ltb_leb.
  intros Hlt. rewrite <- !handScore_category in Hlt by assumption.
  pose proof (band_facts _ _ (handRanks_enum _ Ho) (handScore_categories other))
    as (_ & _ & Hlo' & _).
  rewrite (evaluateHand_five other (proj1 Ho)).
  eapply ltb_leb_trans; [| apply ltb_leb, Hlo'].
  eapply ltb_leb_trans; [exact Hhi|].
  apply category_gap; auto using handScore_categories.
Qed.

Lemma evaluateHand_category_bands_witness :
  handScore scenarioHand = 0 /\ handScore onePairHand = 100 /\
  (evaluateHand (Some scenarioHand) <? evaluateHand (Some onePairHand))%float = true.
Proof.
  split; [reflexivity|]. split; [reflexivity|].
  refine (proj2 (proj2 (proj2 (proj2 (proj2 (proj2 (proj2
            (evaluateHand_category_bands scenarioHand onePairHand _ _))))))) _).
  - apply validHand_intro; reflexivity.
  - apply validHand_intro; reflexivity.
  - vm_compute. reflexivity.
Defined.

Lemma ranks_snoc (cards : list Card) (hi : Z) (rest : list Z) :
  validHand cards -> rev (handRanks cards) = hi :: rest ->
  handRanks cards = rev rest ++ [hi] /\ In (rev rest) (sortedLists 4 2) /\ In hi allRanks.
Proof.
  intros Hv Hrev.
  assert (Heq : handRanks cards = rev rest ++ [hi]).
  { rewrite <- (rev_involutive (handRanks cards)), Hrev. reflexivity. }
  pose proof (handRanks_sorted cards) as Hs.
  pose proof (handRanks_bounds cards (proj2 Hv)) as Hb.
  pose proof (handRanks_length cards) as Hlen.
  rewrite Heq in Hs, Hb, Hlen. rewrite (proj1 Hv), length_app in Hlen. simpl in Hlen.
  apply Forall_app in Hb. destruct Hb as [Hlow Hhi].
  split; [exact Heq|]. split.
  - apply sortedLists_complete; [lia | | exact Hlow].
    eapply StronglySorted_app_1_l, Hs.
  - inversion Hhi as [|? ? [_ Hr] _]; subst. now apply allRanks_spec.
Qed.

(** C5.  [evaluateHand] returns the same strength on a hand of five cards
    and on every permutation of it; and of two hands of the data model with
    the same category score whose ranks, sorted descending, differ in the
    first (highest) one only, the hand with the higher first rank has the
    strictly greater strength. *)
Theorem evaluateHand_order_independent_high_card :
  (forall cards cards' : list Card,
      length cards = 5%nat -> cards ≡ₚ cards' ->
      evaluateHand (Some cards') = evaluateHand (Some cards)) /\
  (forall (cards1 cards2 : list Card) (high1 high2 : Z) (rest : list Z),
      validHand cards1 -> validHand cards2 ->
      handScore cards1 = handScore cards2 ->
      rev (handRanks cards1) = high1 :: rest ->
      rev (handRanks cards2) = high2 :: rest ->
      high2 < high1 ->
      (evaluateHand (Some cards2) <? evaluateHand (Some cards1))%float = true).
Proof.
  split.
  - intros cards cards' Hlen Hp.
    rewrite !evaluateHand_five by (rewrite <- ?Hp; exact Hlen).
    now rewrite (handScore_perm _ _ Hp), (handRanks_perm _ _ Hp).
  - intros cards1 cards2 high1 high2 rest Hv1 Hv2 Hcat Hr1 Hr2 Hlt.
    destruct (ranks_snoc _ _ _ Hv1 Hr1) as (E1 & Hlow & Hin1).
    destruct (ranks_snoc _ _ _ Hv2 Hr2) as (E2 & _ & Hin2).
    rewrite (evaluateHand_five _ (proj1 Hv1)), (evaluateHand_five _ (proj1 Hv2)).
    rewrite E1, E2, <- Hcat.
    apply high_card_facts; auto using handScore_categories.
Qed.

Lemma evaluateHand_order_independent_high_card_witness :
  evaluateHand (Some (rev scenarioHand)) = evaluateHand (Some scenarioHand) /\
  (evaluateHand (Some kingHighHand) <? evaluateHand (Some scenarioHand))%float = true.
Proof.
  split.
  - apply (proj1 evaluateHand_order_independent_high_card); [reflexivity|].
    apply Permutation_rev.
  - apply (proj2 evaluateHand_order_independent_high_card scenarioHand kingHighHand
             14 13 [9; 8; 7; 6]); try reflexivity.
    + apply validHand_intro; reflexivity.
    + apply validHand_intro; reflexivity.
Defined.

(** C8.  [evaluateHand] returns exactly 0 when its input is absent or has a
    length other than 5, in particular on [null] and on the empty array; on
    five cards of the data model it returns a strictly positive value; so
    the result is 0 if and only if the input is not a hand of five cards. *)
Theorem evaluateHand_zero_iff (input : option (list Card)) :
  (forall cards, input = Some cards -> Forall validCard cards) ->
  evaluateHand None = 0%float /\
  evaluateHand (Some []) = 0%float /\
  (forall cards, input = Some cards -> length cards <> 5%nat ->
                 evaluateHand input = 0%float) /\
  (forall cards, input = Some cards -> length cards = 5%nat ->
                 (0 <? evaluateHand input)%float = true) /\
  (evaluateHand input = 0%float <->
   input = None \/ exists cards, input = Some cards /\ length cards <> 5%nat).
Proof.
  intros Hvalid.
  assert (Hpos : forall cards, input = Some cards -> length cards = 5%nat ->
                               (0 <? evaluateHand input)%float = true).
  { intros cards -> Hlen.
    assert (Hv : validHand cards) by (split; auto).
    pose proof (band_facts _ _ (handRanks_enum _ Hv) (handScore_categories cards))
      as (_ & _ & Hlo & _ & Hv0 & _).
    rewrite (evaluateHand_five _ Hlen).
    eapply leb_ltb_trans; [| exact Hlo].
    pose proof (handScore_categories cards) as Hc. unfold categories in Hc. simpl in Hc.
    repeat (destruct Hc as [<-|Hc]; [vm_compute; reflexivity|]). contradiction. }
  split; [reflexivity|]. split; [reflexivity|]. split; [|split; [exact Hpos|]].
  - intros cards -> Hlen. now apply evaluateHand_not_five.
  - split.
    + intros Hz. destruct input as [cards|]; [right | now left].
      exists cards. split; [reflexivity|]. intros Hlen.
      specialize (Hpos cards eq_refl Hlen). rewrite Hz in Hpos. vm_compute in Hpos.
      discriminate.
    + intros [->|(cards & -> & Hlen)]; [reflexivity | now apply evaluateHand_not_five].
Qed.

Lemma evaluateHand_zero_iff_witness :
  (0 <? evaluateHand (Some scenarioHand))%float = true.
Proof.
  refine (proj1 (proj2 (proj2 (proj2 (evaluateHand_zero_iff (Some scenarioHand) _))))
            scenarioHand eq_refl eq_refl).
  intros cards [= <-]. apply (proj2 (validHand_intro scenarioHand eq_refl eq_refl)).
Defined.

(** ** The draw selector: claims C6, C7, C10 and C3 *)

(** C6.  For every hand and every strength of at least 400, [decideDraw]
    returns exactly five [false]: all the cards are kept. *)
Theorem decideDraw_keeps_all (cards : list Card) (handStrength : float) :
  (400 <=? handStrength)%float = true ->
  decideDraw cards handStrength = [false; false; false; false; false].
Proof.
  intros H. unfold decideDraw. now rewrite H.
Qed.

Lemma decideDraw_keeps_all_witness :
  decideDraw straightHand (evaluateHand (Some straightHand))
  = [false; false; false; false; false].
Proof.
  apply decideDraw_keeps_all. vm_compute. reflexivity.
Defined.

Lemma below_100 (s : float) :
  (s <? 100)%float = true ->
  (400 <=? s)%float = false /\ (300 <=? s)%float = false /\
  (200 <=? s)%float = false /\ (100 <=? s)%float = false.
Proof.
  intros H. repeat split; apply ltb_not_leb;
    (exact H || (eapply ltb_leb_trans; [exact H | vm_compute; reflexivity])).
Qed.

Lemma decideDraw_below_100 (cards : list Card) (s : float) :
  (s <? 100)%float = true ->
  decideDraw cards s = keepFirstMax (Js.Math_max (map toRank cards)) false cards.
Proof.
  intros H. destruct (below_100 s H) as (H4 & H3 & H2 & H1).
  unfold decideDraw. now rewrite H4, H3, H2, H1.
Qed.

Lemma keepFirstMax_length (m : option Z) (kept : bool) (cards : list Card) :
  length (keepFirstMax m kept cards) = length cards.
Proof.
  revert kept. induction cards as [|c cards IH]; intros kept; simpl; [reflexivity|].
  destruct (Js.same (toRank c) m && negb kept); simpl; now rewrite IH.
Qed.

Lemma keepFirstMax_kept (m : option Z) (cards : list Card) (i : nat) (b : bool) :
  keepFirstMax m true cards !! i = Some b -> b = true.
Proof.
  revert i. induction cards as [|c cards IH]; intros i; simpl; [discriminate|].
  rewrite andb_false_r. destruct i as [|i]; simpl; [congruence | apply IH].
Qed.

(** The position [keepFirstMax] keeps is the first one that holds [m]. *)
Lemma keepFirstMax_first (m : Z) (cards : list Card) (i : nat) (b : bool) :
  keepFirstMax (Some m) false cards !! i = Some b ->
  (b = false <->
   (map toRank cards !! i = Some m /\
    forall j, (j < i)%nat -> map toRank cards !! j <> Some m)).
Proof.
  revert i. induction cards as [|c cards IH]; intros i; simpl; [discriminate|].
  rewrite andb_true_r. destruct (Z.eqb_spec (toRank c) m) as [E|E].
  - destruct i as [|i]; simpl.
    + intros [= <-]. split; [intros _ | reflexivity].
      split; [now rewrite E | intros j Hj; lia].
    + intros Hb. apply keepFirstMax_kept in Hb. subst b.
      split; [discriminate|]. intros [_ Hfirst].
      exfalso. apply (Hfirst 0%nat); [lia | simpl; now rewrite E].
  - destruct i as [|i]; simpl.
    + intros [= <-]. split; [discriminate|]. intros [Hm _]. congruence.
    + intros Hb. rewrite (IH i Hb). split; intros [Hm Hfirst]; (split; [exact Hm|]).
      * intros [|j] Hj; simpl; [congruence | apply Hfirst; lia].
      * intros j Hj. apply (Hfirst (S j)). lia.
Qed.

Lemma Math_max_from (l : list Z) :
  forall a : Z,
  exists m, fold_left (fun acc r => match acc with
                                    | None => Some r
                                    | Some m => Some (Z.max m r)
                                    end) l (Some a) = Some m /\
            (m = a \/ In m l) /\ a <= m /\ (forall r, In r l -> r <= m).
Proof.
  induction l as [|x l IH]; intros a; simpl.
  - exists a. split; [reflexivity|]. split; [now left|]. split; [lia|]. intros r [].
  - destruct (IH (Z.max a x)) as (m & Hm & Hin & Hle & Hall).
    exists m. split; [exact Hm|]. split; [|split; [lia|]].
    + destruct Hin as [->|Hin]; [|auto].
      destruct (Z.max_spec a x) as [[_ ->]|[_ ->]]; auto.
    + intros r [<-|Hr]; [lia | auto].
Qed.

(** [Math.max] of a non-empty array is an element that bounds the others. *)
Lemma Math_max_spec (x : Z) (l : list Z) :
  exists m, Js.Math_max (x :: l) = Some m /\ In m (x :: l) /\
            (forall r, In r (x :: l) -> r <= m).
Proof.
  unfold Js.Math_max. simpl. destruct (Math_max_from l x) as (m & Hm & Hin & Hle & Hall).
  exists m. split; [exact Hm|]. split.
  - destruct Hin; [left; congruence | now right].
  - intros r [<-|Hr]; auto.
Qed.

(** C7.  For every hand and every strength below 100, [decideDraw] returns
    one decision per card, [false] exactly at the first position in hand
    order whose rank (the ace counting 14) is the maximum, and [true] at
    every other position.  On the hand of the scenario the category is 0,
    the strength lies in [[0, 1)], and only the ace is kept. *)
Theorem decideDraw_high_card :
  (forall (cards : list Card) (handStrength : float),
      (handStrength <? 100)%float = true ->
      length (decideDraw cards handStrength) = length cards /\
      forall (i : nat) (b : bool),
        decideDraw cards handStrength !! i = Some b ->
        (b = false <-> firstMaxAt (map toRank cards) i)) /\
  (handScore scenarioHand = 0 /\
   (0 <=? evaluateHand (Some scenarioHand))%float = true /\
   (evaluateHand (Some scenarioHand) <? 1)%float = true /\
   decideDraw scenarioHand (evaluateHand (Some scenarioHand))
   = [false; true; true; true; true]).
Proof.
  split; [| repeat split; vm_compute; reflexivity].
  intros cards s Hs. rewrite (decideDraw_below_100 cards s Hs).
  split; [apply keepFirstMax_length|].
  intros i b Hb. destruct cards as [|c cards]; [discriminate|].
  destruct (Math_max_spec (toRank c) (map toRank cards)) as (m & Hm & Hin & Hmax).
  change (toRank c :: map toRank cards) with (map toRank (c :: cards)) in *.
  rewrite Hm in Hb. rewrite (keepFirstMax_first m _ i b Hb). unfold firstMaxAt.
  split.
  - intros [Hi Hfirst]. exists m. auto.
  - intros (m' & Hi & Hmax' & Hfirst).
    assert (m' = m); [|subst m'; auto].
    apply Z.le_antisymm.
    + apply Hmax. apply list_elem_of_In. eapply list_elem_of_lookup_2, Hi.
    + apply Hmax', Hin.
Qed.

Lemma decideDraw_high_card_witness :
  decideDraw kingHighHand (evaluateHand (Some kingHighHand)) !! 1%nat = Some false /\
  firstMaxAt (map toRank kingHighHand) 1.
Proof.
  assert (H : decideDraw kingHighHand (evaluateHand (Some kingHighHand)) !! 1%nat
              = Some false) by reflexivity.
  split; [exact H|].
  apply (proj2 (proj1 decideDraw_high_card kingHighHand (evaluateHand (Some kingHighHand))
                  eq_refl) 1%nat false H).
  reflexivity.
Defined.

Lemma countCards_ranks (cards : list Card) : countCards cards = countRanks (map toRank cards).
Proof.
  unfold countCards, countRanks. generalize (@nil (Z * Z)).
  induction cards as [|c cards IH]; intros acc; simpl; [reflexivity | apply IH].
Qed.

Lemma keepFirstMax_ranks (m : option Z) (cards1 : list Card) :
  forall (kept : bool) (cards2 : list Card),
    map toRank cards1 = map toRank cards2 ->
    keepFirstMax m kept cards1 = keepFirstMax m kept cards2.
Proof.
  induction cards1 as [|c1 cards1 IH]; intros kept [|c2 cards2] H; simpl in *;
    try discriminate; [reflexivity|].
  injection H as Hc H. rewrite Hc.
  destruct (Js.same (toRank c2) m && negb kept); f_equal; now apply IH.
Qed.

(** The decision is a function of the ranks in hand order and of the
    strength. *)
Lemma decideDraw_ranks (cards1 cards2 : list Card) (s : float) :
  map toRank cards1 = map toRank cards2 ->
  decideDraw cards1 s = decideDraw cards2 s.
Proof.
  intros H. unfold decideDraw. rewrite !countCards_ranks, H.
  rewrite (keepFirstMax_ranks _ cards1 false cards2 H).
  assert (Hmap : forall f : Z -> bool,
             map (fun card => f (toRank card)) cards1
             = map (fun card => f (toRank card)) cards2).
  { intros f. rewrite <- !(map_map toRank f). now rewrite H. }
  rewrite (Hmap (fun r => Js.differ r (findRank (countRanks (map toRank cards2)) 3))).
  rewrite (Hmap (fun r => Js.same r (findRank (countRanks (map toRank cards2)) 1))).
  rewrite (Hmap (fun r => Js.differ r (findRank (countRanks (map toRank cards2)) 2))).
  reflexivity.
Qed.

(** C10.  [decideDraw] does not look at suits: on two card lists of the same
    length whose cards have, position by position, the same number, and for
    every strength, it returns the same decisions. *)
Theorem decideDraw_suit_blind (cards1 cards2 : list Card) (handStrength : float) :
  Forall2 (fun c1 c2 => number c1 = number c2) cards1 cards2 ->
  decideDraw cards1 handStrength = decideDraw cards2 handStrength.
Proof.
  intros H. apply decideDraw_ranks.
  induction H as [|c1 c2 l1 l2 Hn _ IH]; simpl; [reflexivity|].
  rewrite IH. unfold toRank. now rewrite Hn.
Qed.

Lemma decideDraw_suit_blind_witness :
  decideDraw onePairHand (evaluateHand (Some onePairHand))
  = decideDraw (map (fun c => {| suit := "Hearts"; number := number c |}) onePairHand)
      (evaluateHand (Some onePairHand)).
Proof.
  apply decideDraw_suit_blind. repeat constructor.
Defined.

Lemma decideDraw_length (cards : list Card) :
  length (decideDraw cards (evaluateHand (Some cards))) = length cards.
Proof.
  unfold decideDraw.
  destruct (400 <=? evaluateHand (Some cards))%float eqn:H4.
  - destruct (Nat.eq_dec (length cards) 5%nat) as [E|E]; [now rewrite E|].
    rewrite (evaluateHand_not_five cards E) in H4. vm_compute in H4. discriminate.
  - repeat match goal with
           | |- context [if ?b then _ else _] => destruct b
           end; rewrite ?length_map; auto using keepFirstMax_length.
Qed.

(** The cards of the acting player as [drawCard] reads them. *)
Lemma drawCard_decision (data : GameInfo) (me : JsPlayer) :
  let own := default [] (players data !! name me ≫= fun self => cards (Snapshot.round self)) in
  draw data me = (decideDraw own (evaluateHand (Some own)), me).
Proof. reflexivity. Qed.

(** C3, as the code has it.  For a player name of [ownKey], the draw hook
    returns one boolean per card of the acting player: five on a hand of
    five cards, and none (the empty sequence) when the player's entry, or its
    cards, are absent from the snapshot.  The session is left as it was. *)
Theorem draw_one_decision_per_card (data : GameInfo) (me : JsPlayer) :
  ownKey (name me) ->
  let own := default [] (players data !! name me ≫= fun self => cards (Snapshot.round self)) in
  length (fst (draw data me)) = length own /\
  (length own = 5%nat -> length (fst (draw data me)) = 5%nat) /\
  (players data !! name me = None -> fst (draw data me) = []) /\
  snd (draw data me) = me.
Proof.
  intros _. cbv zeta. rewrite drawCard_decision. cbn [fst snd]. rewrite decideDraw_length.
  repeat split; auto.
  intros ->. reflexivity.
Qed.

Lemma draw_one_decision_per_card_witness :
  length (fst (draw (testData scenarioHand None) testSession)) = 5%nat.
Proof.
  apply (draw_one_decision_per_card (testData scenarioHand None) testSession
           testSession_ownKey).
  reflexivity.
Defined.

(** C3 as stated fails: without the player's own entry in the snapshot the
    draw hook returns the empty sequence, not five booleans. *)
Lemma draw_without_self_is_empty :
  players testDataWithoutSelf !! name testSession = None /\
  fst (draw testDataWithoutSelf testSession) = [] /\
  length (fst (draw testDataWithoutSelf testSession)) <> 5%nat.
Proof.
  split; [vm_compute; reflexivity|]. split; [vm_compute; reflexivity|].
  vm_compute. discriminate.
Qed.

(** ** The lifecycle hooks: claims C9, C4 and C2 *)

(** C9.  After the end hook: the win counter is its previous value plus
    exactly 1 when [snapshot.winner] is the player's own name and is
    unchanged otherwise; [id], [name] and the round counter are unchanged in
    both cases. *)
Theorem endRound_win_counter (data : GameInfo) (me : JsPlayer) :
  let me' := snd (end_ data me) in
  (winner data = Some (name me) -> win me' = win me + 1) /\
  (winner data <> Some (name me) -> win me' = win me) /\
  id me' = id me /\ name me' = name me /\ round me' = round me.
Proof.
  cbv zeta. unfold end_, endRound, mbind, Method_bind, this. simpl.
  destruct (bool_decide_reflect (winner data = Some (name me))) as [E|E]; simpl;
    repeat split; auto; intros; congruence.
Qed.

Lemma endRound_win_counter_witness :
  win (snd (end_ (testData scenarioHand (Some "team2")) testSession)) = 1 /\
  win (snd (end_ (testData scenarioHand (Some "Player1")) testSession)) = 0.
Proof.
  split.
  - apply (proj1 (endRound_win_counter (testData scenarioHand (Some "team2")) testSession)).
    reflexivity.
  - apply (proj1 (proj2 (endRound_win_counter (testData scenarioHand (Some "Player1"))
                           testSession))).
    discriminate.
Defined.

(** C4 as stated fails: a second call of the end hook with the same
    snapshot, in which the player is the winner, counts a second win. *)
Lemma end_twice_counts_twice :
  win (snd (end_ (testData scenarioHand (Some "team2")) testSession)) = 1 /\
  win (snd (end_ (testData scenarioHand (Some "team2"))
              (snd (end_ (testData scenarioHand (Some "team2")) testSession)))) = 2 /\
  ~ idempotent (end_ (testData scenarioHand (Some "team2"))) testSession.
Proof.
  split; [reflexivity|]. split; [reflexivity|].
  intros [H _]. apply (f_equal win) in H. vm_compute in H. discriminate.
Qed.

(** C4, as the code has it.  The start, bet and draw hooks are idempotent
    on every snapshot; the end hook is idempotent when the winner of the
    snapshot is not the player, and otherwise every call adds 1 to the win
    counter and changes nothing else. *)
Theorem hooks_idempotent_except_win (data : GameInfo) (me : JsPlayer) :
  idempotent (start data) me /\
  idempotent (bet data) me /\
  idempotent (draw data) me /\
  (winner data <> Some (name me) -> idempotent (end_ data) me) /\
  (winner data = Some (name me) ->
   snd (end_ data (snd (end_ data me)))
   = {| id := id me; name := name me; round := round me; win := win me + 2 |}).
Proof.
  assert (Hbet : snd (bet data me) = me).
  { reflexivity. }
  split; [split; reflexivity|].
  split; [unfold idempotent; now rewrite Hbet|].
  split; [split; reflexivity|].
  split.
  - intros Hw. unfold idempotent, end_, endRound, mbind, Method_bind, this. simpl.
    rewrite (bool_decide_false _ Hw). simpl. rewrite (bool_decide_false _ Hw). now split.
  - intros E. unfold end_, endRound, mbind, Method_bind, this. simpl.
    rewrite (bool_decide_true _ E). simpl. rewrite (bool_decide_true _ E). simpl.
    f_equal. lia.
Qed.

Lemma hooks_idempotent_except_win_witness :
  idempotent (end_ (testData scenarioHand (Some "Player1"))) testSession /\
  win (snd (end_ (testData scenarioHand (Some "team2"))
              (snd (end_ (testData scenarioHand (Some "team2")) testSession)))) = 2.
Proof.
  split.
  - apply (hooks_idempotent_except_win (testData scenarioHand (Some "Player1")) testSession).
    discriminate.
  - rewrite (proj2 (proj2 (proj2 (proj2
        (hooks_idempotent_except_win (testData scenarioHand (Some "team2")) testSession))))
        eq_refl).
    reflexivity.
Defined.






(** ** The arithmetic of the betting policy on integers *)

Lemma half_pot (p : Z) : Qfloor (inject_Z p * 0.5) = p / 2.
Proof.
  unfold Qfloor, Qmult, inject_Z. simpl.
  rewrite <- (Z.div_mul_cancel_r p 2 5) by lia. reflexivity.
Qed.

Lemma above_half_pot (p m : Z) : (inject_Z p * 0.5 < inject_Z m)%Q <-> p < 2 * m.
Proof. unfold Qlt, Qmult, inject_Z. simpl. lia. Qed.

Lemma below_tenth_pot (p d : Z) : (inject_Z d < inject_Z p * 0.1)%Q <-> 10 * d < p.
Proof. unfold Qlt, Qmult, inject_Z. simpl. lia. Qed.

(** ** The scenarios of the specification and of the test suite *)

#[local] Set Warnings "-inexact-float".

Example category_numbers :
  map Js.Num categories
  = [0; 100; 200; 300; 400; 500; 600; 700; 800; 900]%float.
Proof. vm_compute. reflexivity. Qed.

Example scenario_strength : evaluateHand (Some scenarioHand) = 0.1409080706%float.
Proof. vm_compute. reflexivity. Qed.

Example one_pair_strength : evaluateHand (Some onePairHand) = 100.1209070703%float.
Proof. vm_compute. reflexivity. Qed.

Example one_pair_draw :
  decideDraw onePairHand (evaluateHand (Some onePairHand))
  = [false; false; true; true; true].
Proof. vm_compute. reflexivity. Qed.

Example two_pair_draw :
  decideDraw twoPairHand (evaluateHand (Some twoPairHand))
  = [false; false; false; false; true].
Proof. vm_compute. reflexivity. Qed.

Example strong_hand_opens_with_half_pot :
  fst (bet (snapshot 1000 0 twoPairHand None) testSession) = 500.
Proof. vm_compute. reflexivity. Qed.

Example one_pair_folds_to_big_bet :
  fst (bet (snapshot 1000 600 onePairHand None) testSession) = -1.
Proof. vm_compute. reflexivity. Qed.

Example start_sets_round :
  snd (start (testData [] None) testSession)
  = {| id := "1"; name := "team2"; round := 1; win := 0 |}.
Proof. reflexivity. Qed.

(** * Further properties of the code *)
(** ** The [counts] object *)

Lemma get_update_same (k v : Z) (o : Js.object) :
  Js.get k o <> None -> Js.get k (Js.update k v o) = Some v.
Proof.
  induction o as [|[k' v'] o IH]; simpl; [congruence|].
  destruct (Z.eqb_spec k' k) as [->|E]; simpl.
  - now rewrite Z.eqb_refl.
  - destruct (Z.eqb_spec k' k); [contradiction | exact IH].
Qed.

Lemma get_update_other (k k' v : Z) (o : Js.object) :
  k' <> k -> Js.get k' (Js.update k v o) = Js.get k' o.
Proof.
  intros Hk. induction o as [|[k0 v0] o IH]; simpl; [reflexivity|].
  destruct (Z.eqb_spec k0 k) as [->|E]; simpl.
  - destruct (Z.eqb_spec k k'); [congruence | reflexivity].
  - destruct (Z.eqb_spec k0 k'); [reflexivity | exact IH].
Qed.

Lemma get_create_same (k v : Z) (o : Js.object) :
  Js.get k o = None -> Js.get k (Js.create k v o) = Some v.
Proof.
  induction o as [|[k' v'] o IH]; simpl; [now rewrite Z.eqb_refl|].
  destruct (Z.eqb_spec k' k) as [->|E]; [discriminate|]. intros Hk.
  destruct (Js.isIndex k && (negb (Js.isIndex k') || (k <? k'))); simpl.
  - now rewrite Z.eqb_refl.
  - destruct (Z.eqb_spec k' k); [contradiction | now apply IH].
Qed.

Lemma get_create_other (k k' v : Z) (o : Js.object) :
  k' <> k -> Js.get k' (Js.create k v o) = Js.get k' o.
Proof.
  intros Hk. induction o as [|[k0 v0] o IH]; simpl.
  - destruct (Z.eqb_spec k k'); [congruence | reflexivity].
  - destruct (Js.isIndex k && (negb (Js.isIndex k0) || (k <? k0))); simpl.
    + destruct (Z.eqb_spec k k'); [congruence | reflexivity].
    + destruct (Z.eqb_spec k0 k'); [reflexivity | exact IH].
Qed.

(** Reading back what was written, and leaving the other properties alone. *)
Lemma get_set_same (k v : Z) (o : Js.object) : Js.get k (Js.set k v o) = Some v.
Proof.
  unfold Js.set. destruct (Js.get k o) eqn:E.
  - apply get_update_same. congruence.
  - now apply get_create_same.
Qed.

Lemma get_set_other (k k' v : Z) (o : Js.object) :
  k' <> k -> Js.get k' (Js.set k v o) = Js.get k' o.
Proof.
  intros Hk. unfold Js.set.
  destruct (Js.get k o); [now apply get_update_other | now apply get_create_other].
Qed.

Lemma occurrences_cons (r x : Z) (l : list Z) :
  occurrences r (x :: l) = (if x =? r then 1 else 0) + occurrences r l.
Proof.
  unfold occurrences. simpl. destruct (Z.eq_dec x r) as [->|E].
  - rewrite Z.eqb_refl. lia.
  - destruct (Z.eqb_spec x r); [contradiction | lia].
Qed.

Lemma occurrences_nonneg (r : Z) (l : list Z) : 0 <= occurrences r l.
Proof. unfold occurrences. lia. Qed.

Lemma countRanks_from (ranks : list Z) :
  forall (acc : Js.object) (r : Z),
    Js.get r (fold_left (fun acc rank => Js.set rank (Js.or0 (Js.get rank acc) + 1) acc)
                ranks acc)
    = match Js.get r acc with
      | Some v => Some (v + occurrences r ranks)
      | None => if occurrences r ranks =? 0 then None else Some (occurrences r ranks)
      end.
Proof.
  induction ranks as [|x ranks IH]; intros acc r; simpl fold_left.
  - unfold occurrences. simpl. destruct (Js.get r acc); [f_equal; lia | reflexivity].
  - rewrite IH, occurrences_cons. destruct (Z.eqb_spec x r) as [->|E].
    + rewrite get_set_same. pose proof (occurrences_nonneg r ranks).
      destruct (Js.get r acc) as [v|]; simpl.
      * f_equal. lia.
      * destruct (Z.eqb_spec (1 + occurrences r ranks) 0); [lia | f_equal; lia].
    + rewrite get_set_other by congruence. now rewrite Z.add_0_l.
Qed.

Lemma countRanks_get (ranks : list Z) (r : Z) :
  Js.get r (countRanks ranks)
  = if occurrences r ranks =? 0 then None else Some (occurrences r ranks).
Proof. unfold countRanks. now rewrite countRanks_from. Qed.

(** X1.  The object [counts] that the [reduce] of [evaluateHand] and of
    [decideDraw] builds has, under every rank that occurs, the number of
    cards of that rank, and no property for a rank that does not occur. *)
Theorem counts_lookup (cards : list Card) (ranks : list Z) (r : Z) :
  Js.get r (countRanks ranks)
  = (if occurrences r ranks =? 0 then None else Some (occurrences r ranks)) /\
  Js.get r (countCards cards)
  = (if occurrences r (map toRank cards) =? 0 then None
     else Some (occurrences r (map toRank cards))).
Proof.
  split; [apply countRanks_get|]. rewrite countCards_ranks. apply countRanks_get.
Qed.

Lemma total_update (k v v' : Z) (o : Js.object) :
  Js.get k o = Some v ->
  sumValues (Js.Object_values (Js.update k v' o)) = sumValues (Js.Object_values o) - v + v'.
Proof.
  induction o as [|[k0 v0] o IH]; simpl; [discriminate|].
  destruct (Z.eqb_spec k0 k) as [->|E]; simpl.
  - intros [= ->]. lia.
  - intros H. rewrite (IH H). lia.
Qed.

Lemma total_create (k v : Z) (o : Js.object) :
  sumValues (Js.Object_values (Js.create k v o)) = sumValues (Js.Object_values o) + v.
Proof.
  induction o as [|[k0 v0] o IH]; simpl; [lia|].
  destruct (Js.isIndex k && (negb (Js.isIndex k0) || (k <? k0))); simpl; lia.
Qed.

Lemma values_update (P : Z -> Prop) (k v : Z) (o : Js.object) :
  P v -> Forall P (Js.Object_values o) -> Forall P (Js.Object_values (Js.update k v o)).
Proof.
  intros Hv. induction o as [|[k0 v0] o IH]; simpl; [auto|].
  intros H. inversion H; subst. destruct (k0 =? k); simpl; constructor; auto.
Qed.

Lemma values_create (P : Z -> Prop) (k v : Z) (o : Js.object) :
  P v -> Forall P (Js.Object_values o) -> Forall P (Js.Object_values (Js.create k v o)).
Proof.
  intros Hv. induction o as [|[k0 v0] o IH]; simpl; [auto|].
  intros H. inversion H; subst.
  destruct (Js.isIndex k && (negb (Js.isIndex k0) || (k <? k0))); simpl; repeat constructor; auto.
Qed.

Lemma get_value (P : Z -> Prop) (k v : Z) (o : Js.object) :
  Forall P (Js.Object_values o) -> Js.get k o = Some v -> P v.
Proof.
  induction o as [|[k0 v0] o IH]; simpl; [discriminate|].
  intros H. inversion H; subst. destruct (k0 =? k); [intros [= <-]; assumption | auto].
Qed.

Lemma countRanks_values (ranks : list Z) :
  forall acc : Js.object,
    Forall (Z.le 1) (Js.Object_values acc) ->
    let o := fold_left (fun acc rank => Js.set rank (Js.or0 (Js.get rank acc) + 1) acc)
               ranks acc in
    Forall (Z.le 1) (Js.Object_values o) /\
    sumValues (Js.Object_values o) = sumValues (Js.Object_values acc) + Z.of_nat (length ranks).
Proof.
  induction ranks as [|x ranks IH]; intros acc Hacc; cbv zeta; simpl fold_left.
  - split; [exact Hacc | simpl; lia].
  - destruct (IH (Js.set x (Js.or0 (Js.get x acc) + 1) acc)) as [Hpos Hsum].
    + unfold Js.set. destruct (Js.get x acc) as [v|] eqn:E; simpl.
      * apply values_update; [|exact Hacc]. pose proof (get_value _ _ _ _ Hacc E). simpl in *. lia.
      * apply values_create; [lia | exact Hacc].
    + split; [exact Hpos|]. rewrite Hsum. unfold Js.set.
      destruct (Js.get x acc) as [v|] eqn:E; simpl Js.or0.
      * rewrite (total_update _ _ _ _ E). simpl length. lia.
      * rewrite total_create. simpl length. lia.
Qed.

Lemma flip_le_total : Total (flip Z.le).
Proof. intros x y. unfold flip. lia. Qed.

Lemma flip_le_transitive : Transitive (flip Z.le).
Proof. intros x y z. unfold flip. lia. Qed.

Lemma total_Permutation (l l' : list Z) : l ≡ₚ l' -> sumValues l = sumValues l'.
Proof. induction 1; simpl; lia. Qed.

(** X2.  [countsValues], the sorted group sizes, is in descending order,
    holds only counts of at least 1, and its entries add up to the number of
    cards counted. *)
Theorem countsValues_partition (ranks : list Z) :
  StronglySorted (flip Z.le) (countsValues ranks) /\
  Forall (Z.le 1) (countsValues ranks) /\
  sumValues (countsValues ranks) = Z.of_nat (length ranks).
Proof.
  unfold countsValues, Js.sortDescending.
  destruct (countRanks_values ranks [] (Forall_nil_2 _)) as [Hpos Hsum].
  cbv zeta in Hpos, Hsum. fold (countRanks ranks) in Hpos, Hsum.
  split.
  { apply (@StronglySorted_merge_sort _ (flip Z.le) _ flip_le_transitive flip_le_total). }
  split.
  - now rewrite merge_sort_Permutation.
  - rewrite (total_Permutation _ _ (merge_sort_Permutation _ _)). rewrite Hsum. simpl. lia.
Qed.

(** ** The counting branches of [decideDraw] *)

Lemma keys_get (k : Z) (o : Js.object) : In k (Js.Object_keys o) <-> Js.get k o <> None.
Proof.
  induction o as [|[k0 v0] o IH]; simpl; [tauto|].
  destruct (Z.eqb_spec k0 k) as [->|E]; [split; [discriminate | auto]|].
  rewrite <- IH. tauto.
Qed.

Lemma occurrences_In (r : Z) (l : list Z) : occurrences r l <> 0 -> In r l.
Proof.
  unfold occurrences. intros H. apply (count_occ_In Z.eq_dec). lia.
Defined.

(** The rank [findRank] returns when exactly one rank occurs [n] times. *)
Lemma findRank_unique (ranks : list Z) (n r : Z) :
  n <> 0 -> occurrences r ranks = n ->
  (forall r', occurrences r' ranks = n -> r' = r) ->
  findRank (countRanks ranks) n = Some r.
Proof.
  intros Hn Hr Huniq. unfold findRank.
  destruct (find _ _) as [k|] eqn:E.
  - apply find_some in E. destruct E as [_ E]. rewrite countRanks_get in E.
    destruct (Z.eqb_spec (occurrences k ranks) 0); [discriminate|].
    apply Z.eqb_eq in E. f_equal. now apply Huniq.
  - pose proof (find_none _ _ E r) as Hnone. simpl in Hnone.
    rewrite countRanks_get, Hr in Hnone.
    destruct (Z.eqb_spec n 0); [contradiction|].
    rewrite Z.eqb_refl in Hnone. exfalso.
    assert (Hin : In r (Js.Object_keys (countRanks ranks))).
    { apply keys_get. rewrite countRanks_get, Hr.
      destruct (Z.eqb_spec n 0); [contradiction | discriminate]. }
    specialize (Hnone Hin). discriminate.
Qed.

(** [find] returns [undefined] when no rank occurs [n] times. *)
Lemma findRank_none (ranks : list Z) (n : Z) :
  (forall r, occurrences r ranks <> n) -> findRank (countRanks ranks) n = None.
Proof.
  intros Hnone. unfold findRank. destruct (find _ _) as [k|] eqn:E; [|reflexivity].
  apply find_some in E. destruct E as [_ E]. rewrite countRanks_get in E.
  destruct (Z.eqb_spec (occurrences k ranks) 0); [discriminate|].
  apply Z.eqb_eq in E. now destruct (Hnone k).
Qed.

Lemma leb_400 (s : float) :
  (300 <=? s)%float = false -> (400 <=? s)%float = false.
Proof.
  intros H. destruct (400 <=? s)%float eqn:E; [|reflexivity].
  rewrite (ltb_leb 300 s) in H; [discriminate|].
  apply (ltb_leb_trans 300 400 s); [reflexivity | exact E].
Qed.

Lemma leb_300 (s : float) :
  (200 <=? s)%float = false -> (300 <=? s)%float = false.
Proof.
  intros H. destruct (300 <=? s)%float eqn:E; [|reflexivity].
  rewrite (ltb_leb 200 s) in H; [discriminate|].
  apply (ltb_leb_trans 200 300 s); [reflexivity | exact E].
Qed.

(** The three counting branches on a hand in which exactly one rank occurs
    [n] times. *)
Lemma decideDraw_counted (cards : list Card) (handStrength : float) (n r : Z) :
  n <> 0 ->
  occurrences r (map toRank cards) = n ->
  (forall r', occurrences r' (map toRank cards) = n -> r' = r) ->
  ((300 <=? handStrength)%float = true -> (400 <=? handStrength)%float = false -> n = 3 ->
   decideDraw cards handStrength = map (fun card => negb (toRank card =? r)) cards) /\
  ((200 <=? handStrength)%float = true -> (300 <=? handStrength)%float = false -> n = 1 ->
   decideDraw cards handStrength = map (fun card => toRank card =? r) cards) /\
  ((100 <=? handStrength)%float = true -> (200 <=? handStrength)%float = false -> n = 2 ->
   decideDraw cards handStrength = map (fun card => negb (toRank card =? r)) cards).
Proof.
  intros Hn Hr Huniq.
  pose proof (findRank_unique _ n r Hn Hr Huniq) as Hfind.
  rewrite <- countCards_ranks in Hfind. unfold decideDraw.
  split; [|split].
  - intros H3 H4 ->. now rewrite H4, H3, Hfind.
  - intros H2 H3 ->. now rewrite (leb_400 _ H3), H3, H2, Hfind.
  - intros H1 H2 ->. now rewrite (leb_400 _ (leb_300 _ H2)), (leb_300 _ H2), H2, H1, Hfind.
Qed.

(** X3.  On cards of the data model, in each counting branch of
    [decideDraw], when exactly one rank [r] occurs the number of times the
    branch looks for, the decision follows that rank: between 300 and 400
    (three cards of rank [r]) and between 100 and 200 (two cards of rank
    [r]) every card of another rank is discarded and the cards of rank [r]
    are kept; between 200 and 300 (one card of rank [r]) that card alone is
    discarded. *)
Theorem decideDraw_follows_the_count (cards : list Card) (handStrength : float) (n r : Z) :
  Forall validCard cards ->
  n <> 0 ->
  occurrences r (map toRank cards) = n ->
  (forall r', occurrences r' (map toRank cards) = n -> r' = r) ->
  ((300 <=? handStrength)%float = true -> (400 <=? handStrength)%float = false -> n = 3 ->
   decideDraw cards handStrength = map (fun card => negb (toRank card =? r)) cards) /\
  ((200 <=? handStrength)%float = true -> (300 <=? handStrength)%float = false -> n = 1 ->
   decideDraw cards handStrength = map (fun card => toRank card =? r) cards) /\
  ((100 <=? handStrength)%float = true -> (200 <=? handStrength)%float = false -> n = 2 ->
   decideDraw cards handStrength = map (fun card => negb (toRank card =? r)) cards).
Proof.
  intros _ Hn Hr Huniq.
  pose proof (findRank_unique _ n r Hn Hr Huniq) as Hfind.
  rewrite <- countCards_ranks in Hfind. unfold decideDraw.
  split; [|split].
  - intros H3 H4 ->. now rewrite H4, H3, Hfind.
  - intros H2 H3 ->. now rewrite (leb_400 _ H3), H3, H2, Hfind.
  - intros H1 H2 ->. now rewrite (leb_400 _ (leb_300 _ H2)), (leb_300 _ H2), H2, H1, Hfind.
Qed.

Lemma decideDraw_follows_the_count_witness :
  decideDraw onePairHand (evaluateHand (Some onePairHand))
  = map (fun card => negb (toRank card =? 7)) onePairHand.
Proof.
  refine (proj2 (proj2 (decideDraw_follows_the_count onePairHand
                          (evaluateHand (Some onePairHand)) 2 7
                          (proj2 (validHand_intro onePairHand eq_refl eq_refl)) _ _ _))
            _ _ _);
    try reflexivity; try discriminate.
  intros r' H.
  assert (Hin : In r' (map toRank onePairHand)) by (apply occurrences_In; now rewrite H).
  simpl in Hin. repeat (destruct Hin as [<-|Hin]; [try reflexivity; discriminate H|]).
  contradiction.
Defined.

(** X4.  When no rank occurs the number of times the branch looks for,
    [find] yields [undefined] and [parseInt] yields [NaN]: between 300 and
    400 and between 100 and 200 every card is discarded; between 200 and 300
    no card is. *)
Theorem decideDraw_without_the_count (cards : list Card) (handStrength : float) (n : Z) :
  (forall r, occurrences r (map toRank cards) <> n) ->
  ((300 <=? handStrength)%float = true -> (400 <=? handStrength)%float = false -> n = 3 ->
   decideDraw cards handStrength = map (fun _ => true) cards) /\
  ((200 <=? handStrength)%float = true -> (300 <=? handStrength)%float = false -> n = 1 ->
   decideDraw cards handStrength = map (fun _ => false) cards) /\
  ((100 <=? handStrength)%float = true -> (200 <=? handStrength)%float = false -> n = 2 ->
   decideDraw cards handStrength = map (fun _ => true) cards).
Proof.
  intros Hnone. pose proof (findRank_none _ n Hnone) as Hfind.
  rewrite <- countCards_ranks in Hfind. unfold decideDraw.
  split; [|split].
  - intros H3 H4 ->. now rewrite H4, H3, Hfind.
  - intros H2 H3 ->. now rewrite (leb_400 _ H3), H3, H2, Hfind.
  - intros H1 H2 ->. now rewrite (leb_400 _ (leb_300 _ H2)), (leb_300 _ H2), H2, H1, Hfind.
Qed.

Lemma decideDraw_without_the_count_witness :
  decideDraw scenarioHand 150%float = [true; true; true; true; true].
Proof.
  refine (proj2 (proj2 (decideDraw_without_the_count scenarioHand 150%float 2 _)) _ _ _);
    try reflexivity.
  intros r H.
  assert (Hin : In r (map toRank scenarioHand)) by (apply occurrences_In; now rewrite H).
  simpl in Hin. repeat (destruct Hin as [<-|Hin]; [discriminate H|]).
  contradiction.
Defined.

(** ** The thresholds on the strength, by category *)

Lemma Num_le (a b : Z) :
  In a categories -> In b categories -> a <= b -> (Js.Num a <=? Js.Num b)%float = true.
Proof.
  unfold categories. simpl. intros Ha Hb Hle.
  repeat (destruct Ha as [<-|Ha]; [| ]); try contradiction;
    repeat (destruct Hb as [<-|Hb]; [| ]); try contradiction;
    try lia; vm_compute; reflexivity.
Qed.

Lemma threshold_category (cards : list Card) (t : Z) :
  validHand cards -> In t categories ->
  (Js.Num t <=? evaluateHand (Some cards))%float = (t <=? handScore cards).
Proof.
  intros Hv Ht.
  pose proof (handScore_categories cards) as Hc.
  pose proof (band_facts _ _ (handRanks_enum _ Hv) Hc) as (_ & _ & Hlo & Hhi & _).
  rewrite (evaluateHand_five _ (proj1 Hv)).
  destruct (Z.leb_spec t (handScore cards)) as [Hle|Hlt].
  - apply ltb_leb. eapply leb_ltb_trans; [|exact Hlo]. now apply Num_le.
  - apply ltb_not_leb. eapply ltb_leb_trans; [exact Hhi|]. now apply category_gap.
Qed.

(** The four thresholds of the program. *)
Lemma threshold_literals (cards : list Card) :
  validHand cards ->
  (400 <=? evaluateHand (Some cards))%float = (400 <=? handScore cards) /\
  (300 <=? evaluateHand (Some cards))%float = (300 <=? handScore cards) /\
  (200 <=? evaluateHand (Some cards))%float = (200 <=? handScore cards) /\
  (100 <=? evaluateHand (Some cards))%float = (100 <=? handScore cards).
Proof.
  intros Hv.
  pose proof (threshold_category cards 400 Hv) as H4.
  pose proof (threshold_category cards 300 Hv) as H3.
  pose proof (threshold_category cards 200 Hv) as H2.
  pose proof (threshold_category cards 100 Hv) as H1.
  unfold categories in *. simpl in *.
  repeat split; [apply H4 | apply H3 | apply H2 | apply H1]; tauto.
Qed.

(** X5.  On a hand of five cards of the data model the thresholds that
    [decideDraw] and [decideBetPoint] put on the strength select by category:
    the strength is at least 400, 300, 200 or 100 exactly when the category
    score is. *)
Theorem strength_thresholds (cards : list Card) :
  validHand cards ->
  (400 <=? evaluateHand (Some cards))%float = (400 <=? handScore cards) /\
  (300 <=? evaluateHand (Some cards))%float = (300 <=? handScore cards) /\
  (200 <=? evaluateHand (Some cards))%float = (200 <=? handScore cards) /\
  (100 <=? evaluateHand (Some cards))%float = (100 <=? handScore cards).
Proof.
  intros Hv.
  pose proof (threshold_category cards 400 Hv) as H4.
  pose proof (threshold_category cards 300 Hv) as H3.
  pose proof (threshold_category cards 200 Hv) as H2.
  pose proof (threshold_category cards 100 Hv) as H1.
  unfold categories in *. simpl in *.
  repeat split; [apply H4 | apply H3 | apply H2 | apply H1]; tauto.
Qed.

Lemma strength_thresholds_witness :
  (200 <=? evaluateHand (Some onePairHand))%float = false.
Proof.
  rewrite (proj1 (proj2 (proj2 (strength_thresholds onePairHand
                                  (validHand_intro onePairHand eq_refl eq_refl))))).
  reflexivity.
Defined.

(** ** What the draw keeps, by category *)

Lemma checkCounts_all : forallb checkCounts (sortedLists 5 2) = true.
Proof. vm_compute. reflexivity. Qed.

Lemma singleRank_spec (n : Z) (ranks : list Z) :
  singleRank n ranks = true ->
  exists r, occurrences r ranks = n /\
            forall r', In r' allRanks -> occurrences r' ranks = n -> r' = r.
Proof.
  unfold singleRank.
  destruct (filter (fun r => occurrences r ranks = n) allRanks) as [|r [|]] eqn:E;
    try discriminate.
  intros _. exists r.
  assert (Hin : forall r', r' ∈ [r] <-> occurrences r' ranks = n /\ r' ∈ allRanks).
  { intros r'. rewrite <- E.
    apply (list_elem_of_filter (fun r0 => occurrences r0 ranks = n)). }
  split.
  - apply (Hin r). now left.
  - intros r' Hr' Hn. apply list_elem_of_In in Hr'.
    assert (H : r' ∈ [r]) by (apply Hin; auto).
    apply list_elem_of_singleton in H. exact H.
Qed.

Lemma occurrences_Permutation (r : Z) (l l' : list Z) :
  l ≡ₚ l' -> occurrences r l = occurrences r l'.
Proof.
  intros Hp. unfold occurrences. f_equal.
  now apply (proj1 (Permutation_count_occ Z.eq_dec l l')).
Qed.

(** The rank the branch of a category looks for, on a valid hand. *)
Lemma counted_rank (cards : list Card) (s n : Z) :
  validHand cards -> handScore cards = s ->
  (s = 300 /\ n = 3) \/ (s = 200 /\ n = 1) \/ (s = 100 /\ n = 2) ->
  exists r, occurrences r (map toRank cards) = n /\
            forall r', occurrences r' (map toRank cards) = n -> r' = r.
Proof.
  intros Hv Hs Hcase.
  pose proof checkCounts_all as Hall. rewrite forallb_forall in Hall.
  specialize (Hall _ (handRanks_enum _ Hv)). unfold checkCounts in Hall.
  rewrite forallb_forall in Hall.
  assert (Hfl : In (isFlush (handSuits cards)) [true; false]).
  { destruct (isFlush (handSuits cards)); simpl; tauto. }
  specialize (Hall _ Hfl). cbv zeta in Hall. fold (handScore cards) in Hall.
  rewrite Hs in Hall. rewrite !andb_true_iff, !orb_true_iff, !negb_true_iff in Hall.
  destruct Hall as [[H300 H200] H100].
  assert (Hsingle : singleRank n (handRanks cards) = true).
  { destruct Hcase as [[-> ->]|[[-> ->]|[-> ->]]].
    - destruct H300 as [H|H]; [discriminate | exact H].
    - destruct H200 as [H|H]; [discriminate | exact H].
    - destruct H100 as [H|H]; [discriminate | exact H]. }
  destruct (singleRank_spec _ _ Hsingle) as (r & Hr & Huniq).
  assert (Hn : n <> 0) by (destruct Hcase as [[_ ->]|[[_ ->]|[_ ->]]]; discriminate).
  pose proof (handRanks_Permutation cards) as Hp.
  exists r. split; [now rewrite <- (occurrences_Permutation r _ _ Hp)|].
  intros r' Hr'. rewrite <- (occurrences_Permutation r' _ _ Hp) in Hr'.
  apply Huniq; [|exact Hr'].
  apply allRanks_spec.
  assert (Hin : In r' (handRanks cards)) by (apply occurrences_In; now rewrite Hr').
  pose proof (handRanks_bounds cards (proj2 Hv)) as Hb.
  rewrite Forall_forall in Hb. apply list_elem_of_In, Hb in Hin. lia.
Qed.

Lemma keptCount_others (cards : list Card) (r : Z) :
  keptCount (map (fun card => negb (toRank card =? r)) cards)
  = occurrences r (map toRank cards).
Proof.
  unfold keptCount, occurrences. f_equal.
  induction cards as [|c cards IH]; simpl; [reflexivity|].
  destruct (Z.eqb_spec (toRank c) r) as [E|E]; simpl;
    destruct (Z.eq_dec (toRank c) r); try contradiction; now rewrite IH.
Qed.

Lemma keptCount_one (cards : list Card) (r : Z) :
  keptCount (map (fun card => toRank card =? r) cards)
  = Z.of_nat (length cards) - occurrences r (map toRank cards).
Proof.
  unfold keptCount, occurrences.
  induction cards as [|c cards IH]; simpl; [reflexivity|].
  destruct (Z.eqb_spec (toRank c) r) as [E|E]; simpl;
    destruct (Z.eq_dec (toRank c) r); try contradiction; lia.
Qed.

Lemma keptCount_kept (m : option Z) (cards : list Card) :
  keptCount (keepFirstMax m true cards) = 0.
Proof.
  unfold keptCount. induction cards as [|c cards IH]; simpl; [reflexivity|].
  rewrite andb_false_r. simpl. exact IH.
Qed.

Lemma keptCount_first (m : Z) (cards : list Card) :
  In m (map toRank cards) -> keptCount (keepFirstMax (Some m) false cards) = 1.
Proof.
  induction cards as [|c cards IH]; simpl; [contradiction|].
  rewrite andb_true_r. destruct (Z.eqb_spec (toRank c) m) as [E|E].
  - intros _. pose proof (keptCount_kept (Some m) cards) as H.
    unfold keptCount in *. simpl. lia.
  - intros [H|H]; [contradiction|]. specialize (IH H).
    unfold keptCount in *. simpl. exact IH.
Qed.

(** The last branch keeps one card of a non-empty hand. *)
Lemma keeps_one (cards : list Card) (handStrength : float) :
  cards <> [] -> (handStrength <? 100)%float = true ->
  keptCount (decideDraw cards handStrength) = 1.
Proof.
  intros Hne Hs. rewrite (decideDraw_below_100 _ _ Hs).
  destruct cards as [|c cards]; [contradiction|].
  destruct (Math_max_spec (toRank c) (map toRank cards)) as (m & Hm & Hin & _).
  change (toRank c :: map toRank cards) with (map toRank (c :: cards)) in *.
  rewrite Hm. now apply keptCount_first.
Qed.

(** X6.  In the last branch of [decideDraw] (strength below 100) exactly one
    card of a non-empty hand is kept, whatever the ranks: a second card of
    the highest rank is discarded. *)
Theorem decideDraw_keeps_one (cards : list Card) (handStrength : float) :
  cards <> [] -> (handStrength <? 100)%float = true ->
  keptCount (decideDraw cards handStrength) = 1.
Proof.
  intros Hne Hs. rewrite (decideDraw_below_100 _ _ Hs).
  destruct cards as [|c cards]; [contradiction|].
  destruct (Math_max_spec (toRank c) (map toRank cards)) as (m & Hm & Hin & _).
  change (toRank c :: map toRank cards) with (map toRank (c :: cards)) in *.
  rewrite Hm. now apply keptCount_first.
Qed.

Lemma decideDraw_keeps_one_witness :
  keptCount (decideDraw scenarioHand (evaluateHand (Some scenarioHand))) = 1.
Proof.
  apply decideDraw_keeps_one; [discriminate | reflexivity].
Defined.

(** X7.  What the draw keeps on a hand of five cards of the data model, by
    category: all five cards from a straight up; the three cards of the
    triple with three of a kind; the four cards of the two pairs, the kicker
    alone being discarded; the two cards of the pair with one pair; and one
    card with a high-card hand. *)
Theorem draw_by_category (cards : list Card) :
  validHand cards ->
  let decision := decideDraw cards (evaluateHand (Some cards)) in
  (400 <= handScore cards -> decision = [false; false; false; false; false]) /\
  (handScore cards = 300 ->
   exists r, occurrences r (map toRank cards) = 3 /\
             decision = map (fun card => negb (toRank card =? r)) cards /\
             keptCount decision = 3) /\
  (handScore cards = 200 ->
   exists r, occurrences r (map toRank cards) = 1 /\
             decision = map (fun card => toRank card =? r) cards /\
             keptCount decision = 4) /\
  (handScore cards = 100 ->
   exists r, occurrences r (map toRank cards) = 2 /\
             decision = map (fun card => negb (toRank card =? r)) cards /\
             keptCount decision = 2) /\
  (handScore cards = 0 -> keptCount decision = 1).
Proof.
  intros Hv. cbv zeta.
  destruct (threshold_literals cards Hv) as (H4 & H3 & H2 & H1).
  split; [|split; [|split; [|split]]].
  - intros Hs. unfold decideDraw. rewrite H4.
    now destruct (Z.leb_spec 400 (handScore cards)); [|lia].
  - intros Hs. rewrite Hs in *.
    destruct (counted_rank cards 300 3 Hv Hs) as (r & Hr & Huniq); [tauto|].
    exists r. split; [exact Hr|].
    rewrite (proj1 (decideDraw_counted cards _ 3 r ltac:(discriminate) Hr Huniq)
               H3 H4 eq_refl).
    split; [reflexivity|]. now rewrite keptCount_others.
  - intros Hs. rewrite Hs in *.
    destruct (counted_rank cards 200 1 Hv Hs) as (r & Hr & Huniq); [tauto|].
    exists r. split; [exact Hr|].
    rewrite (proj1 (proj2 (decideDraw_counted cards _ 1 r ltac:(discriminate)
                             Hr Huniq)) H2 H3 eq_refl).
    split; [reflexivity|]. rewrite keptCount_one, Hr, (proj1 Hv). reflexivity.
  - intros Hs. rewrite Hs in *.
    destruct (counted_rank cards 100 2 Hv Hs) as (r & Hr & Huniq); [tauto|].
    exists r. split; [exact Hr|].
    rewrite (proj2 (proj2 (decideDraw_counted cards _ 2 r ltac:(discriminate)
                             Hr Huniq)) H1 H2 eq_refl).
    split; [reflexivity|]. now rewrite keptCount_others.
  - intros Hs. rewrite Hs in *. apply keeps_one.
    + destruct cards; [destruct Hv; discriminate | discriminate].
    + pose proof (handScore_categories cards) as Hc.
      pose proof (band_facts _ _ (handRanks_enum _ Hv) Hc) as (_ & _ & _ & Hhi & _).
      rewrite (evaluateHand_five _ (proj1 Hv)), Hs in *.
      eapply ltb_leb_trans; [exact Hhi | vm_compute; reflexivity].
Qed.

Lemma draw_by_category_witness :
  keptCount (decideDraw twoPairHand (evaluateHand (Some twoPairHand))) = 4.
Proof.
  destruct (proj1 (proj2 (proj2 (draw_by_category twoPairHand
                                   (validHand_intro twoPairHand eq_refl eq_refl))))
              eq_refl) as (r & _ & _ & H).
  exact H.
Defined.

(** ** The order of the strengths within a category *)

Lemma checkChain_all : checkChain (map Js.Num categories) tiePairs = true.
Proof. vm_compute. reflexivity. Qed.

Lemma checkRoyal_all : forallb checkRoyal (sortedLists 5 2) = true.
Proof. vm_compute. reflexivity. Qed.

Lemma ltb_irrefl (x : float) : (x <? x)%float = false.
Proof.
  destruct (x <? x)%float eqn:E; [|reflexivity].
  pose proof (ltb_leb _ _ E) as H. now rewrite (ltb_not_leb _ _ E) in H.
Qed.

Lemma ltb_asym (x y : float) : (x <? y)%float = true -> (y <? x)%float = false.
Proof.
  intros H. destruct (y <? x)%float eqn:E; [|reflexivity].
  pose proof (ltb_leb _ _ E) as H'. now rewrite (ltb_not_leb _ _ H) in H'.
Qed.

Lemma chainRel_transitive (cs : list float) : Transitive (chainRel cs).
Proof.
  intros p q r [Hpq Fpq] [Hqr Fqr]. split; [lia|].
  intros c Hc. eapply ltb_leb_trans; [apply Fpq, Hc | apply ltb_leb, Fqr, Hc].
Qed.

Lemma checkChain_Sorted (cs : list float) (l : list (Z * float)) :
  checkChain cs l = true -> Sorted (chainRel cs) l.
Proof.
  induction l as [|p [|q l] IH]; intros H; try (repeat constructor; fail).
  simpl in H. rewrite !andb_true_iff in H. destruct H as [[Hlt Hcs] Htl].
  constructor; [now apply IH|]. constructor. split; [lia|].
  rewrite forallb_forall in Hcs. exact Hcs.
Qed.

Lemma StronglySorted_related {A : Type} (R : relation A) (l : list A) (x y : A) :
  StronglySorted R l -> In x l -> In y l -> x = y \/ R x y \/ R y x.
Proof.
  induction 1 as [|a l Hs IH Ha]; [intros []|].
  rewrite Forall_forall in Ha.
  intros [<-|Hx] [<-|Hy]; auto.
  - right. left. apply Ha. now apply list_elem_of_In.
  - right. right. apply Ha. now apply list_elem_of_In.
Qed.

(** Between two enumerated rank lists, the greater tie-breaker integer
    gives the greater strength in every category. *)
Lemma tie_order (a b : list Z) (c : Z) :
  In a (sortedLists 5 2) -> In b (sortedLists 5 2) -> In c categories ->
  tieNumber a < tieNumber b ->
  (Js.Num c + fraction a <? Js.Num c + fraction b)%float = true.
Proof.
  intros Ha Hb Hc Hlt.
  pose proof (checkChain_Sorted _ _ checkChain_all) as Hs.
  apply (@Sorted_StronglySorted _ _ (chainRel_transitive _)) in Hs.
  assert (Hin : forall l, In l (sortedLists 5 2) ->
                          In (tieNumber l, fraction l) tiePairs).
  { intros l Hl.
    apply (Permutation_in _ (Permutation_sym (merge_sort_Permutation tieLe _))).
    now apply (in_map (fun ranks => (tieNumber ranks, fraction ranks))). }
  destruct (StronglySorted_related _ _ _ _ Hs (Hin a Ha) (Hin b Hb)) as [E|[[_ H]|[H _]]].
  - injection E as E _. lia.
  - apply H. now apply in_map.
  - simpl in H. lia.
Qed.

Lemma tie_from (d : list Z) :
  forall acc : Z,
    fold_left (fun acc r => 100 * acc + r) d acc
    = acc * 100 ^ Z.of_nat (length d) + fold_left (fun acc r => 100 * acc + r) d 0.
Proof.
  induction d as [|x d IH]; intros acc; simpl fold_left.
  - simpl. lia.
  - rewrite (IH (100 * acc + x)), (IH (100 * 0 + x)).
    replace (Z.of_nat (length (x :: d))) with (Z.succ (Z.of_nat (length d)))
      by (simpl length; lia).
    rewrite Z.pow_succ_r by lia. lia.
Qed.

Lemma tie_bounds (d : list Z) :
  Forall (fun r => 0 <= r <= 99) d ->
  0 <= fold_left (fun acc r => 100 * acc + r) d 0 < 100 ^ Z.of_nat (length d).
Proof.
  induction d as [|x d IH]; intros H.
  - simpl. lia.
  - inversion H as [|? ? Hx Hd]; subst. specialize (IH Hd).
    simpl fold_left. rewrite tie_from.
    replace (Z.of_nat (length (x :: d))) with (Z.succ (Z.of_nat (length d)))
      by (simpl length; lia).
    rewrite Z.pow_succ_r by lia. nia.
Qed.

(** On lists of two-digit ranks of the same length, the lexicographic
    order is the order of the integers they spell. *)
Lemma lexLt_tie (d1 : list Z) :
  forall d2 : list Z,
    length d1 = length d2 ->
    Forall (fun r => 0 <= r <= 99) d1 -> Forall (fun r => 0 <= r <= 99) d2 ->
    lexLt d1 d2 ->
    fold_left (fun acc r => 100 * acc + r) d1 0 < fold_left (fun acc r => 100 * acc + r) d2 0.
Proof.
  induction d1 as [|x d1 IH]; intros [|y d2] Hlen H1 H2 Hlex; simpl in Hlex; try contradiction.
  inversion H1 as [|? ? Hx Hd1]; inversion H2 as [|? ? Hy Hd2]; subst.
  simpl in Hlen. injection Hlen as Hlen.
  simpl fold_left. rewrite (tie_from d1), (tie_from d2), <- Hlen.
  pose proof (tie_bounds d1 Hd1) as B1. pose proof (tie_bounds d2 Hd2) as B2.
  rewrite <- Hlen in B2.
  destruct Hlex as [Hlt|[-> Hlex]].
  - nia.
  - specialize (IH d2 Hlen Hd1 Hd2 Hlex). lia.
Qed.

Lemma lexLt_trichotomy (d1 : list Z) :
  forall d2 : list Z, length d1 = length d2 -> lexLt d1 d2 \/ d1 = d2 \/ lexLt d2 d1.
Proof.
  induction d1 as [|x d1 IH]; intros [|y d2] Hlen; try discriminate; [auto|].
  injection Hlen as Hlen. simpl.
  destruct (Z.lt_trichotomy x y) as [H|[->|H]]; [tauto | | tauto].
  destruct (IH d2 Hlen) as [H|[->|H]]; tauto.
Qed.

Lemma rev_ranks_bounds (cards : list Card) :
  validHand cards ->
  length (rev (handRanks cards)) = 5%nat /\
  Forall (fun r => 0 <= r <= 99) (rev (handRanks cards)).
Proof.
  intros Hv. split.
  - now rewrite length_rev, handRanks_length, (proj1 Hv).
  - apply Forall_forall. intros r Hr. apply list_elem_of_In, in_rev in Hr.
    pose proof (handRanks_bounds cards (proj2 Hv)) as Hb. rewrite Forall_forall in Hb.
    apply list_elem_of_In, Hb in Hr. lia.
Qed.

(** In one category, the hand whose ranks are greater, compared from the
    highest down, has the greater strength. *)
Lemma rank_order (cards1 cards2 : list Card) :
  validHand cards1 -> validHand cards2 ->
  handScore cards1 = handScore cards2 ->
  lexLt (rev (handRanks cards1)) (rev (handRanks cards2)) ->
  (evaluateHand (Some cards1) <? evaluateHand (Some cards2))%float = true.
Proof.
  intros Hv1 Hv2 Hs Hlex.
  rewrite (evaluateHand_five _ (proj1 Hv1)), (evaluateHand_five _ (proj1 Hv2)), Hs.
  destruct (rev_ranks_bounds _ Hv1) as [L1 B1]. destruct (rev_ranks_bounds _ Hv2) as [L2 B2].
  apply tie_order; auto using handRanks_enum, handScore_categories.
  unfold tieNumber. apply lexLt_tie; auto. congruence.
Qed.

(** A hand of a higher category has the greater strength. *)
Lemma category_order (cards1 cards2 : list Card) :
  validHand cards1 -> validHand cards2 ->
  handScore cards1 < handScore cards2 ->
  (evaluateHand (Some cards1) <? evaluateHand (Some cards2))%float = true.
Proof.
  intros Hv1 Hv2 Hlt.
  pose proof (band_facts _ _ (handRanks_enum _ Hv1) (handScore_categories cards1))
    as (_ & _ & _ & Hhi & _).
  pose proof (band_facts _ _ (handRanks_enum _ Hv2) (handScore_categories cards2))
    as (_ & _ & Hlo & _).
  rewrite (evaluateHand_five _ (proj1 Hv1)), (evaluateHand_five _ (proj1 Hv2)).
  eapply ltb_leb_trans; [| apply ltb_leb, Hlo].
  eapply ltb_leb_trans; [exact Hhi|].
  apply category_gap; auto using handScore_categories.
Qed.

(** Two valid hands compare in one of three ways. *)
Lemma hands_compare (cards1 cards2 : list Card) :
  validHand cards1 -> validHand cards2 ->
  (evaluateHand (Some cards1) <? evaluateHand (Some cards2))%float = true \/
  (handScore cards1 = handScore cards2 /\ handRanks cards1 = handRanks cards2) \/
  (evaluateHand (Some cards2) <? evaluateHand (Some cards1))%float = true.
Proof.
  intros Hv1 Hv2.
  destruct (Z.lt_trichotomy (handScore cards1) (handScore cards2)) as [H|[Hs|H]];
    [left; now apply category_order | | right; right; now apply category_order].
  destruct (rev_ranks_bounds _ Hv1) as [L1 _]. destruct (rev_ranks_bounds _ Hv2) as [L2 _].
  destruct (lexLt_trichotomy (rev (handRanks cards1)) (rev (handRanks cards2)))
    as [H|[H|H]]; [congruence | left; now apply rank_order | | right; right].
  - right. left. split; [exact Hs|].
    rewrite <- (rev_involutive (handRanks cards1)), H. apply rev_involutive.
  - apply rank_order; auto.
Qed.

(** X8.  Between two hands of five cards of the data model, [evaluateHand]
    gives the strictly smaller strength to the first exactly when its
    category score is lower, or the scores are equal and its ranks, compared
    from the highest down, are lexicographically smaller. *)
Theorem evaluateHand_order (cards1 cards2 : list Card) :
  validHand cards1 -> validHand cards2 ->
  ((evaluateHand (Some cards1) <? evaluateHand (Some cards2))%float = true <->
   handScore cards1 < handScore cards2 \/
   (handScore cards1 = handScore cards2 /\
    lexLt (rev (handRanks cards1)) (rev (handRanks cards2)))).
Proof.
  intros Hv1 Hv2. split.
  - intros Hlt.
    destruct (Z.lt_trichotomy (handScore cards1) (handScore cards2)) as [H|[Hs|H]];
      [now left | | ].
    + right. split; [exact Hs|].
      destruct (rev_ranks_bounds _ Hv1) as [L1 _]. destruct (rev_ranks_bounds _ Hv2) as [L2 _].
      destruct (lexLt_trichotomy (rev (handRanks cards1)) (rev (handRanks cards2)))
        as [H|[H|H]]; [congruence | exact H | | ].
      * assert (E : handRanks cards1 = handRanks cards2).
        { rewrite <- (rev_involutive (handRanks cards1)), H. apply rev_involutive. }
        rewrite !evaluateHand_five in Hlt by (apply Hv1 || apply Hv2).
        rewrite Hs, E, ltb_irrefl in Hlt. discriminate.
      * pose proof (rank_order _ _ Hv2 Hv1 (eq_sym Hs) H) as H'.
        rewrite (ltb_asym _ _ H') in Hlt. discriminate.
    + pose proof (category_order _ _ Hv2 Hv1 H) as H'.
      rewrite (ltb_asym _ _ H') in Hlt. discriminate.
  - intros [H|[Hs H]]; [now apply category_order | now apply rank_order].
Qed.

Lemma evaluateHand_order_witness :
  (evaluateHand (Some kingHighHand) <? evaluateHand (Some scenarioHand))%float = true.
Proof.
  apply (evaluateHand_order kingHighHand scenarioHand).
  - apply validHand_intro; reflexivity.
  - apply validHand_intro; reflexivity.
  - right. split; [reflexivity|]. left. reflexivity.
Defined.

(** X9.  Two hands of five cards of the data model get the same strength
    exactly when they have the same category score and the same ranks:
    distinct strengths separate all other pairs of hands. *)
Theorem evaluateHand_equal_iff (cards1 cards2 : list Card) :
  validHand cards1 -> validHand cards2 ->
  (evaluateHand (Some cards1) = evaluateHand (Some cards2) <->
   handScore cards1 = handScore cards2 /\ handRanks cards1 = handRanks cards2).
Proof.
  intros Hv1 Hv2. split.
  - intros E. destruct (hands_compare _ _ Hv1 Hv2) as [H|[H|H]]; [|exact H|].
    + rewrite E, ltb_irrefl in H. discriminate.
    + rewrite E, ltb_irrefl in H. discriminate.
  - intros [Hs Hr].
    rewrite (evaluateHand_five _ (proj1 Hv1)), (evaluateHand_five _ (proj1 Hv2)).
    now rewrite Hs, Hr.
Qed.

Lemma evaluateHand_equal_iff_witness :
  evaluateHand (Some scenarioHand) = evaluateHand (Some (rev scenarioHand)).
Proof.
  apply evaluateHand_equal_iff.
  - apply validHand_intro; reflexivity.
  - apply validHand_intro; reflexivity.
  - split; reflexivity.
Defined.

Lemma highest_is_ace (cards : list Card) :
  validHand cards -> In 14 (handRanks cards) ->
  exists rest, rev (handRanks cards) = 14 :: rest.
Proof.
  intros Hv Hace. destruct (rev_ranks_bounds _ Hv) as [L _].
  destruct (rev (handRanks cards)) as [|m rest] eqn:E; [discriminate|].
  exists rest. f_equal.
  assert (Heq : handRanks cards = rev rest ++ [m]).
  { rewrite <- (rev_involutive (handRanks cards)), E. reflexivity. }
  pose proof (handRanks_sorted cards) as Hs.
  pose proof (handRanks_bounds cards (proj2 Hv)) as Hb.
  rewrite Heq in Hs, Hb, Hace. apply Forall_app in Hb. destruct Hb as [_ Hm].
  inversion Hm as [|? ? [_ Hm14] _]; subst.
  apply in_app_or in Hace. destruct Hace as [Hin|[<-|[]]]; [|reflexivity].
  assert (14 <= m); [|lia].
  apply (StronglySorted_app_1_elem_of Z.le (rev rest) [m] 14 m Hs).
  - now apply list_elem_of_In.
  - now left.
Qed.

(** X10.  Within a category the ace always counts as the highest rank of
    the tie-breaker: a hand that holds an ace has a strictly greater strength
    than every hand of the same category score that holds none.  So the
    ace-low straight 2, 3, 4, 5, 14 is ranked above the straights without an
    ace, and a low pair with an ace above a high pair without. *)
Theorem ace_outranks (withAce without : list Card) :
  validHand withAce -> validHand without ->
  handScore without = handScore withAce ->
  In 14 (handRanks withAce) -> ~ In 14 (handRanks without) ->
  (evaluateHand (Some without) <? evaluateHand (Some withAce))%float = true.
Proof.
  intros Hw Ho Hs Hace Hnone. apply rank_order; auto.
  destruct (highest_is_ace _ Hw Hace) as [rest1 ->].
  destruct (rev_ranks_bounds _ Ho) as [L _].
  destruct (rev (handRanks without)) as [|m rest] eqn:E; [discriminate|].
  left.
  assert (Hin : In m (handRanks without)).
  { apply in_rev. rewrite E. now left. }
  pose proof (handRanks_bounds without (proj2 Ho)) as Hb. rewrite Forall_forall in Hb.
  pose proof (Hb m (proj2 (list_elem_of_In _ _) Hin)) as Hm.
  assert (m <> 14) by (intros ->; contradiction). lia.
Qed.

Lemma ace_outranks_witness :
  (evaluateHand (Some kingStraightHand) <? evaluateHand (Some straightHand))%float = true.
Proof.
  apply ace_outranks; try reflexivity.
  - apply validHand_intro; reflexivity.
  - apply validHand_intro; reflexivity.
  - vm_compute. tauto.
  - vm_compute. intuition discriminate.
Defined.

(** X11.  A hand of five cards of the data model scores 900 exactly when
    its five suits are the same and its ranks are 10, 11, 12, 13, 14. *)
Theorem royal_flush_iff (cards : list Card) :
  validHand cards ->
  (handScore cards = 900 <->
   isFlush (handSuits cards) = true /\ handRanks cards = [10; 11; 12; 13; 14]).
Proof.
  intros Hv. pose proof checkRoyal_all as Hall. rewrite forallb_forall in Hall.
  specialize (Hall _ (handRanks_enum _ Hv)). unfold checkRoyal in Hall.
  rewrite forallb_forall in Hall.
  assert (Hfl : In (isFlush (handSuits cards)) [true; false]).
  { destruct (isFlush (handSuits cards)); simpl; tauto. }
  specialize (Hall _ Hfl). fold (handScore cards) in Hall.
  apply Bool.eqb_prop in Hall.
  rewrite <- Z.eqb_eq, Hall, andb_true_iff, bool_decide_eq_true. tauto.
Qed.

Lemma royal_flush_iff_witness :
  handScore royalFlushHand = 900.
Proof.
  apply royal_flush_iff; [apply validHand_intro; reflexivity|].
  split; reflexivity.
Defined.

(** ** The betting policy in integers *)

Lemma fold_if_half (p m a b : Z) :
  (if Qlt_le_dec (inject_Z p * 0.5) (inject_Z m) then a else b)
  = if p <? 2 * m then a else b.
Proof.
  destruct (Qlt_le_dec _ _) as [H|H]; destruct (Z.ltb_spec p (2 * m)) as [H'|H'];
    try reflexivity.
  - apply above_half_pot in H. lia.
  - apply above_half_pot in H'. exfalso. eapply Qlt_not_le; eassumption.
Qed.

Lemma call_if_tenth (p d a b : Z) :
  (if Qlt_le_dec (inject_Z d) (inject_Z p * 0.1) then a else b)
  = if 10 * d <? p then a else b.
Proof.
  destruct (Qlt_le_dec _ _) as [H|H]; destruct (Z.ltb_spec (10 * d) p) as [H'|H'];
    try reflexivity.
  - apply below_tenth_pot in H. lia.
  - apply below_tenth_pot in H'. exfalso. eapply Qlt_not_le; eassumption.
Qed.

(** X12.  When nobody has bet ([minBetPoint] is 0) and the pot is not
    negative, the bet hook never folds for a player who is in the snapshot:
    whatever the hand, it returns 0 or more. *)
Theorem bet_never_folds_a_free_check (data : GameInfo) (me : JsPlayer) :
  players data !! name me <> None -> minBetPoint data = 0 -> 0 <= pot data ->
  0 <= fst (bet data me).
Proof.
  intros Hself Hmin Hpot. unfold bet, decideBetPoint, mbind, Method_bind, this.
  cbn [fst mret Method_ret].
  destruct (players data !! name me) as [self|]; [|contradiction].
  cbv zeta. rewrite Hmin, half_pot, fold_if_half. simpl (0 =? 0).
  destruct (200 <=? _)%float; [apply Z.div_pos; lia|].
  destruct (100 <=? _)%float; [|lia].
  destruct (Z.ltb_spec (pot data) (2 * 0)); lia.
Qed.

Lemma bet_never_folds_a_free_check_witness :
  0 <= fst (bet (snapshot 1000 0 scenarioHand None) testSession).
Proof.
  apply bet_never_folds_a_free_check; [vm_compute; discriminate | reflexivity | discriminate].
Defined.

(** X13.  The bet on a hand of five cards of the data model, by category
    and in integers, for amounts within [safePoints].  With two pair or
    better: half the pot, rounded down, when nobody has bet, and otherwise
    the smaller of twice the minimum bet and what the player has left after
    calling.  With one pair: fold when
    twice the minimum bet exceeds the pot, call otherwise.  With a high-card
    hand: check when nobody has bet, call when ten times the amount to call
    is below the pot, fold otherwise. *)
Theorem bet_by_category (data : GameInfo) (me : JsPlayer) (self : Player) (hand : list Card) :
  safePoints me data ->
  players data !! name me = Some self ->
  cards (Snapshot.round self) = Some hand ->
  validHand hand ->
  let diff := minBetPoint data - default 0 (betPoint (Snapshot.round self)) in
  (200 <= handScore hand ->
   fst (bet data me) = if minBetPoint data =? 0 then pot data / 2
                       else Z.min (point self - diff) (2 * minBetPoint data)) /\
  (handScore hand = 100 ->
   fst (bet data me) = if pot data <? 2 * minBetPoint data then -1 else 0) /\
  (handScore hand = 0 ->
   fst (bet data me) = if (minBetPoint data =? 0) || (10 * diff <? pot data) then 0 else -1).
Proof.
  intros _ Hself Hcards Hv. cbv zeta.
  unfold bet, decideBetPoint, mbind, Method_bind, this. cbn [fst mret Method_ret].
  rewrite Hself, Hcards. cbv zeta.
  destruct (threshold_literals hand Hv) as (_ & _ & H2 & H1).
  rewrite H2, H1, half_pot, fold_if_half, call_if_tenth.
  repeat split; intros Hs.
  - destruct (Z.leb_spec 200 (handScore hand)); [|lia].
    destruct (minBetPoint data =? 0); [reflexivity | f_equal; lia].
  - rewrite Hs. reflexivity.
  - rewrite Hs. simpl. destruct (minBetPoint data =? 0); reflexivity.
Qed.

Lemma bet_by_category_witness :
  fst (bet (snapshot 1000 600 onePairHand None) testSession) = -1.
Proof.
  refine (proj1 (proj2 (bet_by_category (snapshot 1000 600 onePairHand None) testSession
                          (testPlayer 20000 onePairHand) onePairHand _ _ _ _)) _);
    try reflexivity.
  - apply snapshot_safePoints; unfold maxPoints; simpl; lia.
  - apply validHand_intro; reflexivity.
Defined.

(** X14.  For amounts within [safePoints], a player whose cards are missing
    from the snapshot, or are not five in number, is treated as holding the
    weakest hand: the bet hook checks when nobody has bet, calls when ten
    times the amount to call is below the pot, and folds otherwise; it never
    raises. *)
Theorem bet_without_a_hand (data : GameInfo) (me : JsPlayer) (self : Player) :
  safePoints me data ->
  players data !! name me = Some self ->
  (forall hand, cards (Snapshot.round self) = Some hand -> length hand <> 5%nat) ->
  let diff := minBetPoint data - default 0 (betPoint (Snapshot.round self)) in
  fst (bet data me) = if (minBetPoint data =? 0) || (10 * diff <? pot data) then 0 else -1.
Proof.
  intros _ Hself Hcards. cbv zeta.
  unfold bet, decideBetPoint, mbind, Method_bind, this. cbn [fst mret Method_ret].
  rewrite Hself. cbv zeta.
  assert (E : evaluateHand (cards (Snapshot.round self)) = 0%float).
  { destruct (cards (Snapshot.round self)) as [hand|]; [|reflexivity].
    apply evaluateHand_not_five. now apply Hcards. }
  rewrite E, call_if_tenth. change (200 <=? 0)%float with false.
  change (100 <=? 0)%float with false. cbv iota.
  destruct (minBetPoint data =? 0); reflexivity.
Qed.

Lemma bet_without_a_hand_witness :
  fst (bet (snapshot 1000 600 [] None) testSession) = -1.
Proof.
  refine (bet_without_a_hand (snapshot 1000 600 [] None) testSession
            (testPlayer 20000 []) _ _ _).
  - apply snapshot_safePoints; unfold maxPoints; simpl; lia.
  - reflexivity.
  - intros hand [= <-]. discriminate.
Defined.

(** ** Sequences of hook calls *)

Lemma call_frame (c : Call) (me : JsPlayer) :
  id (call c me) = id me /\ name (call c me) = name me /\
  round (call c me) = lastRound (round me) [c] /\
  win (call c me) = win me + wins (name me) [c].
Proof.
  destruct c as [data|data|data|data]; simpl; try (repeat split; lia).
  unfold end_, endRound, mbind, Method_bind, this. simpl.
  destruct (bool_decide (winner data = Some (name me))); simpl; repeat split; lia.
Qed.

Lemma wins_cons (who : string) (c : Call) (calls : list Call) :
  wins who (c :: calls) = wins who [c] + wins who calls.
Proof. destruct c; simpl; lia. Qed.

(** X15.  After any sequence of calls of the four hooks, [id] and [name]
    are those of the session at the beginning, the round counter is the
    round of the last start call (unchanged when there is none), and the
    win counter has grown by the number of end calls whose winner is the
    player; bet and draw calls change nothing. *)
Theorem run_counters (calls : list Call) (me : JsPlayer) :
  run calls me
  = {| id := id me;
       name := name me;
       round := lastRound (round me) calls;
       win := win me + wins (name me) calls |}.
Proof.
  revert me. induction calls as [|c calls IH]; intros me.
  - destruct me. unfold run. simpl. f_equal. lia.
  - unfold run in *. simpl fold_left. rewrite IH.
    destruct (call_frame c me) as (Hid & Hname & Hround & Hwin).
    rewrite Hid, Hname, Hround, Hwin, (wins_cons _ c calls).
    f_equal; try reflexivity; lia.
Qed.

Example test_suite_run :
  run testRun testSession = {| id := "1"; name := "team2"; round := 1; win := 1 |}.
Proof. reflexivity. Qed.

(** ** The tie-breaker as a quotient *)

(** X16.  On a hand of five cards of the data model, the fraction that
    [parseFloat] returns for the tie-breaker is the integer spelled by the
    two-digit ranks, highest first, divided by [10^10] in binary64. *)
Theorem tieBreaker_quotient (cards : list Card) :
  validHand cards ->
  fraction (handRanks cards)
  = (of_uint63 (Uint63.of_Z (tieNumber (handRanks cards)))
     / of_uint63 (Uint63.of_Z (10 ^ 10)))%float.
Proof.
  intros Hv. pose proof checkDivision_all as Hall. rewrite forallb_forall in Hall.
  apply FloatAxioms.Leibniz.eqb_spec. apply (Hall _ (handRanks_enum _ Hv)).
Qed.

Lemma tieBreaker_quotient_witness :
  fraction (handRanks scenarioHand)
  = (of_uint63 (Uint63.of_Z 1409080706) / of_uint63 (Uint63.of_Z (10 ^ 10)))%float.
Proof.
  apply (tieBreaker_quotient scenarioHand). apply validHand_intro; reflexivity.
Defined.
